(** * GA-Pilot-Logbook: the route handlers of app/main.py

    A shallow embedding of the FastAPI route handlers of [app/main.py] and
    of the storage operations they call, followed by the properties of the
    handlers.

    Layout:
    - Python values: strings as lists of code points, [str.upper];
    - the handler monad: a computation over a state that returns or raises;
    - the rows and tables of the store;
    - module [crud]: the data-access operations ([sqlUtils/crud.py]);
    - the handlers, one definition per decorated function of main.py;
    - the route table, the session dependency [get_db] and the OpenAPI
      document of [custom_openapi];
    - the properties of the handlers, one by one, then in sequence. *)

From stdpp Require Import base decidable option list numbers strings.
From Stdlib Require Import ZArith NArith Ascii Lia.

Local Open Scope Z_scope.

(** ** Python values *)

(** A Python [str] is a sequence of Unicode code points. *)
Definition str := list N.

(** A literal of the source, as a [str]. *)
Definition str_of (s : string) : str :=
  (λ a, N_of_ascii a) <$> String.list_ascii_of_string s.

(** What the handlers take from the language and its libraries and main.py
    does not define: the uppercase mapping of the code points above ASCII
    (one code point may map to several), and the ['utf-8-sig'] decoder of
    [str(bytes, 'utf-8-sig')], which fails on bytes that are not UTF-8. *)
Class Builtins := {
  unicode_upper : N → list N;
  decode_utf8_sig : list Byte.byte → option str
}.

Definition is_ascii_lower (c : N) : bool := ((97 <=? c) && (c <=? 122))%N.
Definition is_ascii_upper (c : N) : bool := ((65 <=? c) && (c <=? 90))%N.

(** The uppercase form of one code point: a-z lose 32, the other ASCII
    code points stay, the rest follow the Unicode table. *)
Definition char_upper `{Builtins} (c : N) : list N :=
  if (c <? 128)%N
  then (if is_ascii_lower c then [(c - 32)%N] else [c])
  else unicode_upper c.

(** [s.upper()]: code point by code point, without context. *)
Definition upper `{Builtins} (s : str) : str := s ≫= char_upper.

(** The uppercase form of an ASCII string in the plain sense of the word:
    every letter a-z replaced by its capital, everything else kept. What
    [upper] is compared with. *)
Definition ascii_upper (s : str) : str :=
  (λ c, if is_ascii_lower c then (c - 32)%N else c) <$> s.

(** Two code points are the same Latin letter in possibly different case:
    the same code point, or a letter a-z and its capital A-Z. *)
Definition same_ascii_letter (c d : N) : Prop :=
  c = d
  ∨ (is_ascii_lower c = true ∧ d = (c - 32)%N)
  ∨ (is_ascii_upper c = true ∧ d = (c + 32)%N).

(** Two strings differ only in the case of the letters a-z, A-Z. *)
Definition differ_only_in_ascii_case (s1 s2 : str) : Prop :=
  Forall2 same_ascii_letter s1 s2.

(** The small and the capital sharp s, U+00DF and U+1E9E: one letter in
    two cases (in Python ['\u1e9e'.lower() == '\xdf']). *)
Definition small_sharp_s : N := 223.
Definition capital_sharp_s : N := 7838.

(** Two code points are the same letter in possibly different case, over
    Unicode. Of the case pairs outside ASCII only the sharp s is listed:
    the relation is a part of the full one. *)
Definition same_letter (c d : N) : Prop :=
  same_ascii_letter c d
  ∨ (c = small_sharp_s ∧ d = capital_sharp_s)
  ∨ (c = capital_sharp_s ∧ d = small_sharp_s).

(** Two strings differ only in letter case. *)
Definition differ_only_in_case (s1 s2 : str) : Prop :=
  Forall2 same_letter s1 s2.

(** ** The handler monad *)

(** What a handler can raise: the [HTTPException] of fastapi, or an
    exception nobody catches (a parse error in the upload path). *)
Inductive exn : Type :=
  | HTTPException (status_code : Z) (detail : string)
  | Unhandled (what : string).

Inductive outcome (A : Type) : Type :=
  | Returned (a : A)
  | Raised (e : exn).
Arguments Returned {A} a.
Arguments Raised {A} e.

(** A handler body: from the state before to an outcome and the state
    after. *)
Definition handler (S A : Type) : Type := S → outcome A * S.

Definition ret {S A} (a : A) : handler S A := λ s, (Returned a, s).

Definition raise {S A} (e : exn) : handler S A := λ s, (Raised e, s).

Definition bind {S A B} (m : handler S A) (k : A → handler S B) : handler S B :=
  λ s, match m s with
       | (Returned a, s') => k a s'
       | (Raised e, s') => (Raised e, s')
       end.

(** A read of the state, and an operation that changes it. *)
Definition query {S A} (f : S → A) : handler S A := λ s, (Returned (f s), s).

Definition update {S A} (f : S → A * S) : handler S A :=
  λ s, let '(a, s') := f s in (Returned a, s').

(** [if cond: raise e] *)
Definition raise_if {S} (cond : bool) (e : exn) : handler S () :=
  if cond then raise e else ret ().

(** [if x is None: raise e], after which [x] is a row. *)
Definition raise_if_none {S A} (x : option A) (e : exn) : handler S A :=
  match x with
  | None => raise e
  | Some a => ret a
  end.

(** The handlers are written with stdpp's monad notation: [x ← m; k] and
    [m;; k]. *)
Global Instance handler_ret {S} : MRet (handler S) := λ A, ret.
Global Instance handler_bind {S} : MBind (handler S) := λ A B k m, bind m k.

(** What the client gets. *)
Inductive response (A : Type) : Type :=
  | Success (status : Z) (body : A)
  | Failure (status : Z) (detail : string).
Arguments Success {A} status body.
Arguments Failure {A} status detail.

Definition HTTP_200_OK : Z := 200.
Definition HTTP_201_CREATED : Z := 201.
Definition HTTP_202_ACCEPTED : Z := 202.

(** The route decorator: a returned value is sent with the route's
    [status_code], an [HTTPException] with its own status and detail, any
    other exception as a server error. *)
Definition endpoint {S A} (status_code : Z) (body : handler S A)
    : S → response A * S :=
  λ s, match body s with
       | (Returned a, s') => (Success status_code a, s')
       | (Raised (HTTPException c d), s') => (Failure c d, s')
       | (Raised (Unhandled _), s') => (Failure 500 "Internal Server Error", s')
       end.

(** ** Rows and tables *)

(** Modelled from the spec: the schemas ([sqlUtils/schemas]) and the tables
    ([sqlUtils/models.py]) are not part of main.py. Section 3 of the spec
    gives each entity an auto-assigned identity, the pilot a name, the
    aircraft a tail number and its owning pilot, the flight its two
    references, the logbook its layout and its owning pilot; the attributes
    it leaves open are kept as a list of fields. *)
Definition fields := list (string * string).

Record PilotCreate := { pc_name : str; pc_fields : fields }.
Record Pilot := { pilot_id : Z; pilot_name : str; pilot_fields : fields }.

Record AircraftCreate := { acc_tail : str; acc_fields : fields }.
Record Aircraft := {
  aircraft_id : Z;
  aircraft_tail : str;
  aircraft_fields : fields;
  aircraft_pilot_id : Z
}.

Record FlightCreate := { fc_fields : fields }.
Record Flight := {
  flight_id : Z;
  flight_fields : fields;
  flight_pilot_id : option Z;
  flight_aircraft_id : option Z
}.

Record LogbookCreate := { lc_pilot_id : Z; lc_layout : fields }.
Record Logbook := {
  logbook_id : Z;
  logbook_pilot_id : Z;
  logbook_layout : fields
}.

(** Modelled from the spec: the store behind a session ([SessionLocal] of
    sqlUtils/database.py), the four entity tables of section 2, each a list
    of rows in insertion order. *)
Record DB := {
  pilots : list Pilot;
  aircraft : list Aircraft;
  flights : list Flight;
  logbooks : list Logbook
}.

Definition empty_db : DB :=
  {| pilots := []; aircraft := []; flights := []; logbooks := [] |}.

Definition set_pilots (db : DB) (l : list Pilot) : DB :=
  {| pilots := l; aircraft := aircraft db; flights := flights db;
     logbooks := logbooks db |}.
Definition set_aircraft (db : DB) (l : list Aircraft) : DB :=
  {| pilots := pilots db; aircraft := l; flights := flights db;
     logbooks := logbooks db |}.
Definition set_flights (db : DB) (l : list Flight) : DB :=
  {| pilots := pilots db; aircraft := aircraft db; flights := l;
     logbooks := logbooks db |}.
Definition set_logbooks (db : DB) (l : list Logbook) : DB :=
  {| pilots := pilots db; aircraft := aircraft db; flights := flights db;
     logbooks := l |}.

(** Modelled from the spec: the "auto-assigned id" of section 3, here one
    more than the largest identity in use. *)
Definition fresh_id (ids : list Z) : Z := 1 + foldr Z.max 0 ids.

(** ** The data-access layer *)

Module crud.

(** Modelled from the spec: [crud.get_pilot_by_id] of sqlUtils/crud.py,
    "get-by-id" of section 2: the first pilot row whose id is the one asked
    for, or [None]. The id asked for may be [None] (p_flight passes its
    optional query parameter as it is); a row's id never is. *)
Definition get_pilot_by_id (db : DB) (pilot_id' : option Z) : option Pilot :=
  head (filter (λ p, Some (pilot_id p) = pilot_id') (pilots db)).

(** Modelled from the spec: [crud.get_pilot_by_name], "get-by-name" of
    section 2: the first pilot row with that name, or [None]. *)
Definition get_pilot_by_name (db : DB) (pilot_name' : str) : option Pilot :=
  head (filter (λ p, pilot_name p = pilot_name') (pilots db)).

(** Modelled from the spec: [crud.create_pilot], section 4.1: "inserts and
    returns the created record". *)
Definition create_pilot (db : DB) (pilot : PilotCreate) : Pilot * DB :=
  let row := {| pilot_id := fresh_id (pilot_id <$> pilots db);
                pilot_name := pc_name pilot;
                pilot_fields := pc_fields pilot |} in
  (row, set_pilots db (pilots db ++ [row])).

(** Modelled from the spec: [crud.get_logbook_by_pilot], section 4.4: "the
    set of logbook layout rows owned by that pilot (empty set if none)". *)
Definition get_logbook_by_pilot (db : DB) (pilot_id' : Z) : list Logbook :=
  filter (λ l, logbook_pilot_id l = pilot_id') (logbooks db).

(** Modelled from the spec: [crud.create_logbook], section 4.4: "inserts
    unconditionally, returns created row". *)
Definition create_logbook (db : DB) (logbook : LogbookCreate) : Logbook * DB :=
  let row := {| logbook_id := fresh_id (logbook_id <$> logbooks db);
                logbook_pilot_id := lc_pilot_id logbook;
                logbook_layout := lc_layout logbook |} in
  (row, set_logbooks db (logbooks db ++ [row])).

(** Modelled from the spec: [crud.delete_logbook_map], section 4.4:
    "removes the matching row scoped to both", with no signal when nothing
    matches. The spec names no payload: the operation returns nothing. *)
Definition delete_logbook_map (db : DB) (pilot_id' logbook_id' : Z) : () * DB :=
  ((), set_logbooks db
         (filter (λ l, ¬ (logbook_pilot_id l = pilot_id' ∧ logbook_id l = logbook_id'))
                 (logbooks db))).

(** Modelled from the spec: [crud.get_aircraft_by_tail], section 4.2: "the
    matching record or an empty/null result if none found". *)
Definition get_aircraft_by_tail (db : DB) (tail_numb : str) : option Aircraft :=
  head (filter (λ a, aircraft_tail a = tail_numb) (aircraft db)).

(** Modelled from the spec: [crud.get_aircraft_by_id], "get-by-id" of
    section 2, as [get_pilot_by_id]. *)
Definition get_aircraft_by_id (db : DB) (ac_id : option Z) : option Aircraft :=
  head (filter (λ a, Some (aircraft_id a) = ac_id) (aircraft db)).

(** Modelled from the spec: [crud.create_aircraft], section 4.2: "inserts
    unconditionally", with the pilot id of the path as the owner. *)
Definition create_aircraft (db : DB) (aircraft' : AircraftCreate) (pilot_id' : Z)
    : Aircraft * DB :=
  let row := {| aircraft_id := fresh_id (aircraft_id <$> aircraft db);
                aircraft_tail := acc_tail aircraft';
                aircraft_fields := acc_fields aircraft';
                aircraft_pilot_id := pilot_id' |} in
  (row, set_aircraft db (aircraft db ++ [row])).

(** Modelled from the spec: [crud.create_flight], section 4.3: the insert
    that follows the two checks; the row keeps the two ids it was given. *)
Definition create_flight (db : DB) (flight : FlightCreate)
    (pilot_id' aircraft_id' : option Z) : Flight * DB :=
  let row := {| flight_id := fresh_id (flight_id <$> flights db);
                flight_fields := fc_fields flight;
                flight_pilot_id := pilot_id';
                flight_aircraft_id := aircraft_id' |} in
  (row, set_flights db (flights db ++ [row])).

End crud.

(** ** The handlers of main.py *)

(** [@app.get("/pilot/{pilot_id}")] *)
Definition g_pilot (pilot_id' : Z) : DB → response Pilot * DB :=
  endpoint HTTP_200_OK (
    db_pilot ← query (λ db, crud.get_pilot_by_id db (Some pilot_id'));
    db_pilot ← raise_if_none db_pilot (HTTPException 422 "Pilot ID required.");
    ret db_pilot).

(** [@app.post("/pilot/new/", status_code=status.HTTP_201_CREATED)].
    [if db_pilot:] holds exactly when a row came back: a row object is
    true. *)
Definition p_pilot (pilot : PilotCreate) : DB → response Pilot * DB :=
  endpoint HTTP_201_CREATED (
    db_pilot ← query (λ db, crud.get_pilot_by_name db (pc_name pilot));
    raise_if (bool_decide (is_Some db_pilot))
             (HTTPException 400 "Name already registered");;
    update (λ db, crud.create_pilot db pilot)).

(** [@app.get("/logbook/all/{pilot_id}")], [pilot_id: int = None]. *)
Definition g_logbook (pilot_id' : option Z) : DB → response (list Logbook) * DB :=
  endpoint HTTP_200_OK (
    pilot_id' ← raise_if_none pilot_id' (HTTPException 400 "Pilot ID needed");
    query (λ db, crud.get_logbook_by_pilot db pilot_id')).

(** [@app.post("/logbook/", status_code=status.HTTP_201_CREATED)] *)
Definition p_logbook (logbook : LogbookCreate) : DB → response Logbook * DB :=
  endpoint HTTP_201_CREATED (update (λ db, crud.create_logbook db logbook)).

(** [@app.delete("/logbook/rm", status_code=status.HTTP_202_ACCEPTED)] *)
Definition del_logbook (pilot_id' logbook_id' : Z) : DB → response () * DB :=
  endpoint HTTP_202_ACCEPTED (
    update (λ db, crud.delete_logbook_map db pilot_id' logbook_id')).

(** [@app.get("/aircraft/s/tn/{ac_tail}")], [ac_tail: str = None]. *)
Definition search_tn `{Builtins} (ac_tail : option str)
    : DB → response (option Aircraft) * DB :=
  endpoint HTTP_200_OK (
    ac_tail ← raise_if_none ac_tail (HTTPException 400 "Missing Tail Number");
    query (λ db, crud.get_aircraft_by_tail db (upper ac_tail))).

(** [@app.post("/aircraft/new/{pilot_id}", status_code=status.HTTP_201_CREATED)] *)
Definition p_aircraft (pilot_id' : Z) (aircraft' : AircraftCreate)
    : DB → response Aircraft * DB :=
  endpoint HTTP_201_CREATED (
    update (λ db, crud.create_aircraft db aircraft' pilot_id')).

(** [@app.post("/flight/", status_code=status.HTTP_201_CREATED)],
    [pilot_id: int = None], [aircraft_id: int = None]. Both lookups run
    before either result is looked at. *)
Definition p_flight (flight : FlightCreate) (pilot_id' aircraft_id' : option Z)
    : DB → response Flight * DB :=
  endpoint HTTP_201_CREATED (
    db_pilot ← query (λ db, crud.get_pilot_by_id db pilot_id');
    db_ac ← query (λ db, crud.get_aircraft_by_id db aircraft_id');
    raise_if (bool_decide (db_pilot = None))
             (HTTPException 422 "Pilot ID required.");;
    raise_if (bool_decide (db_ac = None))
             (HTTPException 422 "Aircraft ID required.");;
    update (λ db, crud.create_flight db flight pilot_id' aircraft_id')).

(** pandas, as far as the upload handler uses it: [pd.read_csv] with
    [parse_dates] (which fails on text that is not CSV and on a missing
    date column), [DataFrame.fillna], [frame[column]] (which fails on a
    missing column) and [Series.describe], printed as text. *)
Class Pandas := {
  DataFrame : Type;
  Series : Type;
  read_csv : str → list str → option DataFrame;
  fillna : DataFrame → Z → DataFrame;
  getitem : DataFrame → str → option Series;
  describe : Series → string
}.

(** What the upload handler runs in: the store and the standard output. *)
Record World := { world_db : DB; stdout : list string }.

(** [print(text)] *)
Definition print (text : string) : handler World () :=
  λ w, (Returned (), {| world_db := world_db w; stdout := stdout w ++ [text] |}).

(** A library call that fails raises an exception main.py does not catch. *)
Definition or_fail {S A} (x : option A) (what : string) : handler S A :=
  raise_if_none x (Unhandled what).

(** [@app_up.post("/upload/{pilot_id}", status_code=status.HTTP_201_CREATED)],
    [file: UploadFile = File(...)], [pilot_id: int = None]. The function
    ends without a [return]: its value is [None]. *)
Definition upload_logbook_file `{Builtins} `{Pandas}
    (file : list Byte.byte) (pilot_id' : option Z)
    : World → response () * World :=
  endpoint HTTP_201_CREATED (
    raise_if (bool_decide (pilot_id' = None))
             (HTTPException 422 "Pilot ID required.");;
    file_raw ← ret file;
    text ← or_fail (decode_utf8_sig file_raw) "UnicodeDecodeError";
    frame ← or_fail (read_csv text [str_of "Date"]) "read_csv";
    file_pd ← ret (fillna frame 0);
    column ← or_fail (getitem file_pd (str_of "Aircraft")) "KeyError";
    print (describe column)).

(** ** Predicates on the store *)

(** A pilot row with the id asked for is in the store. *)
Definition pilot_exists (db : DB) (pilot_id' : option Z) : Prop :=
  ∃ p, p ∈ pilots db ∧ Some (pilot_id p) = pilot_id'.

(** An aircraft row with the id asked for is in the store. *)
Definition aircraft_exists (db : DB) (ac_id : option Z) : Prop :=
  ∃ a, a ∈ aircraft db ∧ Some (aircraft_id a) = ac_id.

(** A pilot of that name is registered. *)
Definition name_registered (db : DB) (name : str) : Prop :=
  ∃ p, p ∈ pilots db ∧ pilot_name p = name.

(** The logbook row a deletion scoped to (pilot, logbook) aims at. *)
Definition targeted (pilot_id' logbook_id' : Z) (l : Logbook) : Prop :=
  logbook_pilot_id l = pilot_id' ∧ logbook_id l = logbook_id'.

(** ** Sample data *)

Definition alice : Pilot :=
  {| pilot_id := 1; pilot_name := str_of "Alice"; pilot_fields := [] |}.

Definition new_alice : PilotCreate :=
  {| pc_name := str_of "Alice"; pc_fields := [] |}.

Definition new_bob : PilotCreate :=
  {| pc_name := str_of "Bob"; pc_fields := [("rating", "PPL")] |}.

Definition cessna : Aircraft :=
  {| aircraft_id := 1; aircraft_tail := str_of "N12345"; aircraft_fields := [];
     aircraft_pilot_id := 1 |}.

Definition layout_1 : Logbook :=
  {| logbook_id := 1; logbook_pilot_id := 1; logbook_layout := [("Date", "date")] |}.

Definition layout_2 : Logbook :=
  {| logbook_id := 2; logbook_pilot_id := 2; logbook_layout := [] |}.

Definition sample_db : DB :=
  {| pilots := [alice]; aircraft := [cessna]; flights := [];
     logbooks := [layout_1; layout_2] |}.

Definition local_flight : FlightCreate := {| fc_fields := [("route", "local")] |}.

(** Builtins that leave the code points above ASCII alone and read bytes as
    Latin-1, and a pandas whose frames are the text itself: enough to run
    the handlers on the sample data. *)
Definition sample_builtins : Builtins :=
  {| unicode_upper := λ c, [c];
     decode_utf8_sig := λ bs, Some ((λ b, N_of_ascii (ascii_of_byte b)) <$> bs) |}.

Definition sample_pandas : Pandas :=
  {| DataFrame := str; Series := str;
     read_csv := λ text _, Some text;
     fillna := λ frame _, frame;
     getitem := λ frame _, Some frame;
     describe := λ _, "count 0" |}.

Definition lowercase_cessna : Aircraft :=
  {| aircraft_id := 2; aircraft_tail := str_of "n12345"; aircraft_fields := [];
     aircraft_pilot_id := 1 |}.

Definition new_piper : AircraftCreate :=
  {| acc_tail := str_of "G-ABCD"; acc_fields := [] |}.

(** The uppercase mapping of Python at the sharp s:
    ['\xdf'.upper() == 'SS'] and ['\u1e9e'.upper() == '\u1e9e']. The
    other code points above ASCII are not used with it. *)
Definition python_sharp_s : Builtins :=
  {| unicode_upper := λ c, if decide (c = small_sharp_s) then [83; 83]%N else [c];
     decode_utf8_sig := λ _, None |}.

(** A store with one aircraft, of tail "SS". *)
Definition ss_aircraft : Aircraft :=
  {| aircraft_id := 1; aircraft_tail := str_of "SS"; aircraft_fields := [];
     aircraft_pilot_id := 1 |}.

Definition ss_db : DB := set_aircraft empty_db [ss_aircraft].

(** A store in which Alice has flown the Cessna once. *)
Definition first_flight : Flight :=
  {| flight_id := 1; flight_fields := []; flight_pilot_id := Some 1;
     flight_aircraft_id := Some 1 |}.

Definition flown_world : World :=
  {| world_db := set_flights sample_db [first_flight]; stdout := [] |}.

Definition sample_world : World := {| world_db := sample_db; stdout := [] |}.

(** ** The routes of the application *)

(** A request that a route of [app] (with [app_up] included) accepts, with
    its path, query and body parameters bound: one constructor per
    decorator of main.py. *)
Inductive Request : Type :=
  | GET_pilot (pilot_id' : Z)
  | POST_pilot_new (pilot : PilotCreate)
  | GET_logbook_all (pilot_id' : Z)
  | POST_logbook (logbook : LogbookCreate)
  | DELETE_logbook_rm (pilot_id' logbook_id' : Z)
  | GET_aircraft_s_tn (ac_tail : str)
  | POST_aircraft_new (pilot_id' : Z) (aircraft' : AircraftCreate)
  | POST_flight (flight : FlightCreate) (pilot_id' aircraft_id' : option Z)
  | POST_upload (file : list Byte.byte) (pilot_id' : Z).

(** What a handler returned, whichever handler it was. *)
Inductive Body : Type :=
  | PilotBody (p : Pilot)
  | LogbooksBody (ls : list Logbook)
  | LogbookBody (l : Logbook)
  | NoBody
  | AircraftBody (a : option Aircraft)
  | FlightBody (f : Flight).

Definition respond {A} (f : A → Body) (r : response A) : response Body :=
  match r with
  | Success status body => Success status (f body)
  | Failure status detail => Failure status detail
  end.

(** A handler of the store, run where the upload handler runs too. *)
Definition on_store {A} (h : DB → response A * DB) (f : A → Body)
    : World → response Body * World :=
  λ w, let '(r, db') := h (world_db w) in
       (respond f r, {| world_db := db'; stdout := stdout w |}).

(** The route table: each request goes to the handler its decorator names. *)
Definition serve `{Builtins} `{Pandas} (r : Request)
    : World → response Body * World :=
  match r with
  | GET_pilot i => on_store (g_pilot i) PilotBody
  | POST_pilot_new pilot => on_store (p_pilot pilot) PilotBody
  | GET_logbook_all i => on_store (g_logbook (Some i)) LogbooksBody
  | POST_logbook logbook => on_store (p_logbook logbook) LogbookBody
  | DELETE_logbook_rm i j => on_store (del_logbook i j) (λ _, NoBody)
  | GET_aircraft_s_tn tail => on_store (search_tn (Some tail)) AircraftBody
  | POST_aircraft_new i aircraft' =>
      on_store (p_aircraft i aircraft') (λ a, AircraftBody (Some a))
  | POST_flight flight i j => on_store (p_flight flight i j) FlightBody
  | POST_upload file i =>
      λ w, let '(r, w') := upload_logbook_file file (Some i) w in
           (respond (λ _, NoBody) r, w')
  end.

(** The world after a sequence of requests, served one after the other. *)
Definition serve_all `{Builtins} `{Pandas} (rs : list Request) (w : World)
    : World :=
  foldl (λ w r, (serve r w).2) w rs.

(** No two pilot rows have the same name. *)
Definition names_unique (db : DB) : Prop := NoDup (pilot_name <$> pilots db).

(** Every flight row refers to a pilot row and an aircraft row. *)
Definition flights_resolve (db : DB) : Prop :=
  ∀ f, f ∈ flights db →
       pilot_exists db (flight_pilot_id f)
       ∧ aircraft_exists db (flight_aircraft_id f).

(** What one request can do to the store: nothing; add a pilot row under
    a name not yet registered; add a logbook row; remove the logbook rows
    that match a pair of ids; add an aircraft row; add a flight row whose
    pilot and aircraft exist. *)
Inductive store_step (db : DB) : DB → Prop :=
  | step_none : store_step db db
  | step_pilot row :
      ¬ name_registered db (pilot_name row) →
      store_step db (set_pilots db (pilots db ++ [row]))
  | step_logbook row :
      store_step db (set_logbooks db (logbooks db ++ [row]))
  | step_delete pid lid :
      store_step db
        (set_logbooks db (filter (λ l, ¬ targeted pid lid l) (logbooks db)))
  | step_aircraft row :
      store_step db (set_aircraft db (aircraft db ++ [row]))
  | step_flight row :
      pilot_exists db (flight_pilot_id row) →
      aircraft_exists db (flight_aircraft_id row) →
      store_step db (set_flights db (flights db ++ [row])).

(** A string of ASCII code points. *)
Definition is_ascii (s : str) : Prop := Forall (λ c, (c < 128)%N) s.

(** ** The session dependency *)

(** The engine behind [SessionLocal]: the store, and how many sessions are
    open on it. *)
Record Engine := { engine_db : DB; open_sessions : nat }.

(** [SessionLocal()] *)
Definition SessionLocal (e : Engine) : Engine :=
  {| engine_db := engine_db e; open_sessions := S (open_sessions e) |}.

(** [db.close()] *)
Definition close (e : Engine) : Engine :=
  {| engine_db := engine_db e; open_sessions := pred (open_sessions e) |}.

(** Where the generator [get_db] stands: not started, suspended at its
    [yield] inside the [try], or finished. *)
Inductive generator : Type := NotStarted | AtYield | Finished.

(** What resuming a generator gives its caller. *)
Inductive resumed : Type :=
  | Yielded
  | StopIteration
  | Propagated (e : exn).

(** [next(gen)] on [get_db]: the first time it opens a session and yields
    it; resumed at the [yield] it runs the [finally] and ends. *)
Definition get_db_next (g : generator) (e : Engine)
    : resumed * generator * Engine :=
  match g with
  | NotStarted => (Yielded, AtYield, SessionLocal e)
  | AtYield => (StopIteration, Finished, close e)
  | Finished => (StopIteration, Finished, e)
  end.

(** [gen.throw(x)] on [get_db]: at the [yield] the exception passes through
    the [finally], which closes the session; before the first [next] no
    line of the body runs. *)
Definition get_db_throw (x : exn) (g : generator) (e : Engine)
    : resumed * generator * Engine :=
  match g with
  | NotStarted => (Propagated x, Finished, e)
  | AtYield => (Propagated x, Finished, close e)
  | Finished => (Propagated x, Finished, e)
  end.

(** [db: Session = Depends(get_db)]: the generator is advanced to its
    [yield], the handler body runs on the session, and the generator is
    then resumed, or given the exception the body raised. *)
Definition Depends_get_db {A} (body : handler DB A) : handler (Engine * generator) A :=
  λ '(e, g),
    match get_db_next g e with
    | (Yielded, g1, e1) =>
        let '(out, db') := body (engine_db e1) in
        let e2 := {| engine_db := db'; open_sessions := open_sessions e1 |} in
        match out with
        | Returned a =>
            let '(_, g3, e3) := get_db_next g1 e2 in (Returned a, (e3, g3))
        | Raised x =>
            let '(_, g3, e3) := get_db_throw x g1 e2 in (Raised x, (e3, g3))
        end
    | (_, g1, e1) => (Raised (Unhandled "generator didn't yield"), (e1, g1))
    end.

(** ** The OpenAPI document *)

#[local] Set Warnings "-register-all".

(** JSON values, objects as Python dicts: keys in insertion order. *)
Inductive json : Type :=
  | JNull
  | JBool (b : bool)
  | JNum (n : Z)
  | JStr (s : string)
  | JList (items : list json)
  | JObj (items : list (string * json)).

Definition dict := list (string * json).

(** [d[k]], [None] for a [KeyError]. *)
Fixpoint dict_get (k : string) (d : dict) : option json :=
  match d with
  | [] => None
  | (k', v) :: d' => if decide (k' = k) then Some v else dict_get k d'
  end.

(** [d[k] = v]: a key already there keeps its place, a new key goes last. *)
Fixpoint dict_set (k : string) (v : json) (d : dict) : dict :=
  match d with
  | [] => [(k, v)]
  | (k', v') :: d' =>
      if decide (k' = k) then (k, v) :: d' else (k', v') :: dict_set k v d'
  end.

(** [fastapi.openapi.utils.get_openapi], and the routes it reads. *)
Class OpenAPI := {
  Route : Type;
  get_openapi : string → string → string → list Route → dict
}.

(** The two attributes of [app] that [custom_openapi] uses. *)
Record FastAPI `{OpenAPI} := {
  openapi_schema : option dict;
  routes : list Route
}.

Definition API_VERSION : string := "0.0.6".

(** [if app.openapi_schema:]: neither [None] nor an empty dict. *)
Definition schema_is_set (schema : option dict) : bool :=
  match schema with
  | Some (_ :: _) => true
  | _ => false
  end.

Definition x_logo : json :=
  JObj [("url", JStr "/images/logo2-nauclerusAPIV1_dark.png")].

Definition license : json :=
  JObj [("name", JStr "GPL-3.0"); ("url", JStr "/app/LICENSE")].

(** [openapi_schema["info"]["x-logo"] = value]: a [KeyError] without the
    key ["info"], a [TypeError] when what is there is not a dict. *)
Definition set_info_x_logo {S} (schema : dict) (value : json) : handler S dict :=
  match dict_get "info" schema with
  | None => raise (Unhandled "KeyError")
  | Some (JObj info) =>
      ret (dict_set "info" (JObj (dict_set "x-logo" value info)) schema)
  | Some _ => raise (Unhandled "TypeError")
  end.

(** [custom_openapi()], installed as [app.openapi]. *)
Definition custom_openapi `{OpenAPI} : handler FastAPI dict :=
  λ app,
    match openapi_schema app with
    | Some (item :: items) => (Returned (item :: items), app)
    | _ =>
        (schema ← ret (get_openapi "Nauclerus Logbook API" API_VERSION
                         "Aviation logbook API for all pilots." (routes app));
         schema ← set_info_x_logo schema x_logo;
         schema ← ret (dict_set "license" license schema);
         update (λ app, (schema, {| openapi_schema := Some schema;
                                    routes := routes app |}))) app
    end.

(** The document as [get_openapi] gives it for the routes of [app]. *)
Definition generated `{OpenAPI} (app : FastAPI) : dict :=
  get_openapi "Nauclerus Logbook API" API_VERSION
    "Aviation logbook API for all pilots." (routes app).

(** The document [get_openapi] would give for an application without
    routes, and an application that has not been asked for its document. *)
Definition sample_openapi : OpenAPI :=
  {| Route := string;
     get_openapi := λ title version description _,
       [("openapi", JStr "3.0.2");
        ("info", JObj [("title", JStr title); ("description", JStr description);
                       ("version", JStr version)]);
        ("paths", JObj [])] |}.

Definition sample_app : @FastAPI sample_openapi :=
  {| openapi_schema := None; routes := [] |}.

Definition sample_routes : list string := ["/pilot/{pilot_id}"].

Definition sample_requests : list Request :=
  [POST_pilot_new new_bob; POST_pilot_new new_bob;
   POST_aircraft_new 2 new_piper; POST_flight local_flight (Some 2) (Some 2);
   POST_flight local_flight (Some 9) (Some 2); DELETE_logbook_rm 1 1].

(** * Properties *)

(** ** The first row of a filtered table *)

Section first_match.
Context {A : Type} (P : A → Prop) `{!∀ x, Decision (P x)}.

Lemma first_match_None (l : list A) :
  head (filter P l) = None ↔ ∀ x, x ∈ l → ¬ P x.
Proof.
  rewrite head_None. split.
  - intros Hnil x Hx HP. eapply filter_nil_not_elem_of; eauto.
  - intros Hall. induction l as [|x l IH]; [done|].
    rewrite filter_cons_False by (apply Hall; left).
    apply IH. intros y Hy. apply Hall. by right.
Qed.

Lemma first_match_Some (l : list A) (x : A) :
  head (filter P l) = Some x → x ∈ l ∧ P x.
Proof.
  intros Hx%head_Some_elem_of. apply list_elem_of_filter in Hx. tauto.
Qed.

Lemma first_match_is_Some (l : list A) :
  is_Some (head (filter P l)) ↔ ∃ x, x ∈ l ∧ P x.
Proof.
  split.
  - intros [x Hx]. exists x. by apply first_match_Some.
  - intros (x & Hx & HP). apply not_eq_None_Some.
    rewrite first_match_None. intros Hall. by apply (Hall x).
Qed.
(** Filtering twice by the same test is filtering once. *)
Lemma filter_twice (l : list A) : filter P (filter P l) = filter P l.
Proof.
  induction l as [|x l IH]; [done|].
  rewrite (filter_cons _ x l). destruct (decide (P x)); [|exact IH].
  rewrite filter_cons_True by done. by rewrite IH.
Qed.

(** A test every row passes keeps the table. *)
Lemma filter_all (l : list A) : (∀ x, x ∈ l → P x) → filter P l = l.
Proof.
  intros Hall. induction l as [|x l IH]; [done|].
  rewrite filter_cons_True by (apply Hall; left).
  f_equal. apply IH. intros y Hy. apply Hall. by right.
Qed.
End first_match.

(** ** The lookups of the data-access layer *)

Lemma get_pilot_by_id_None db pid :
  crud.get_pilot_by_id db pid = None ↔ ¬ pilot_exists db pid.
Proof.
  unfold crud.get_pilot_by_id, pilot_exists. rewrite first_match_None.
  firstorder.
Qed.

Lemma get_pilot_by_id_Some db pid p :
  crud.get_pilot_by_id db pid = Some p → p ∈ pilots db ∧ Some (pilot_id p) = pid.
Proof. unfold crud.get_pilot_by_id. intros Hp. by apply first_match_Some in Hp. Qed.

Lemma get_aircraft_by_id_None db aid :
  crud.get_aircraft_by_id db aid = None ↔ ¬ aircraft_exists db aid.
Proof.
  unfold crud.get_aircraft_by_id, aircraft_exists. rewrite first_match_None.
  firstorder.
Qed.

Lemma get_aircraft_by_id_Some db aid a :
  crud.get_aircraft_by_id db aid = Some a →
  a ∈ aircraft db ∧ Some (aircraft_id a) = aid.
Proof.
  unfold crud.get_aircraft_by_id. intros Ha. by apply first_match_Some in Ha.
Qed.

Lemma get_pilot_by_name_None db name :
  crud.get_pilot_by_name db name = None ↔ ¬ name_registered db name.
Proof.
  unfold crud.get_pilot_by_name, name_registered. rewrite first_match_None.
  firstorder.
Qed.

(** A [None] id matches no row: no row has a null identity. *)
Lemma no_pilot_without_id db : ¬ pilot_exists db None.
Proof. by intros (p & _ & ?). Qed.

Lemma no_aircraft_without_id db : ¬ aircraft_exists db None.
Proof. by intros (a & _ & ?). Qed.

(** A fresh identity is above every identity in use. *)
Lemma fresh_id_above (ids : list Z) (i : Z) : i ∈ ids → i < fresh_id ids.
Proof.
  unfold fresh_id. induction 1 as [i ids|i j ids _ IH]; simpl; lia.
Qed.

Lemma fresh_id_positive (ids : list Z) : 0 < fresh_id ids.
Proof. unfold fresh_id. induction ids; simpl; lia. Qed.

(** ** Running a handler *)

(** Unfolds a handler down to the lookups it makes. *)
Ltac run_handler :=
  unfold endpoint, mbind, mret, handler_bind, handler_ret, bind, ret, raise,
    query, update, raise_if, raise_if_none; simpl.

(** Goes through the rows of a table given in full. *)
Ltac each_row H :=
  simpl in H;
  repeat (apply elem_of_cons in H as [->|H]; [try done|]);
  try (by apply elem_of_nil in H).

(** Closes [¬ ∃ row, row ∈ table ∧ ...] over a table given in full. *)
Ltac no_such_row :=
  let r := fresh "r" in
  let Hin := fresh "Hin" in
  let Hr := fresh "Hr" in
  intros (r & Hin & Hr); each_row Hin.

(** ** Pilot endpoints *)

Example g_pilot_alice : g_pilot 1 sample_db = (Success 200 alice, sample_db).
Proof. reflexivity. Qed.

Example g_pilot_unknown :
  g_pilot 7 sample_db = (Failure 422 "Pilot ID required.", sample_db).
Proof. reflexivity. Qed.

(** C3. Get pilot by id: when no pilot row has the id, the handler fails
    with 422 and the detail "Pilot ID required." (the message of a missing
    id) and leaves the store as it was; when a row has the id, a row of the
    pilot table with that id is returned, whole, with status 200. *)
Theorem g_pilot_not_found_or_row (pilot_id' : Z) (db : DB) :
  (¬ pilot_exists db (Some pilot_id') →
     g_pilot pilot_id' db = (Failure 422 "Pilot ID required.", db))
  ∧ (pilot_exists db (Some pilot_id') →
     ∃ p, p ∈ pilots db ∧ pilot_id p = pilot_id'
          ∧ g_pilot pilot_id' db = (Success 200 p, db)).
Proof.
  unfold g_pilot. run_handler. split.
  - intros Hno%get_pilot_by_id_None. by rewrite Hno.
  - intros Hex. destruct (crud.get_pilot_by_id db (Some pilot_id')) as [p|] eqn:Hp.
    + apply get_pilot_by_id_Some in Hp as [Hin Hid].
      exists p. by simplify_eq.
    + by apply get_pilot_by_id_None in Hp.
Qed.

Lemma g_pilot_not_found_or_row_witness :
  g_pilot 7 sample_db = (Failure 422 "Pilot ID required.", sample_db)
  ∧ ∃ p, p ∈ pilots sample_db ∧ pilot_id p = 1
         ∧ g_pilot 1 sample_db = (Success 200 p, sample_db).
Proof.
  split.
  - apply (g_pilot_not_found_or_row 7 sample_db). no_such_row.
  - apply (g_pilot_not_found_or_row 1 sample_db).
    exists alice. split; [left | reflexivity].
Defined.

Example p_pilot_alice_again :
  p_pilot new_alice sample_db = (Failure 400 "Name already registered", sample_db).
Proof. reflexivity. Qed.

Example p_pilot_bob :
  p_pilot new_bob sample_db
  = (Success 201 {| pilot_id := 2; pilot_name := str_of "Bob";
                    pilot_fields := [("rating", "PPL")] |},
     set_pilots sample_db
       [alice; {| pilot_id := 2; pilot_name := str_of "Bob";
                  pilot_fields := [("rating", "PPL")] |}]).
Proof. reflexivity. Qed.

(** C2. Create pilot: when the name of the request is the name of a
    registered pilot, the handler fails with 400 "Name already registered"
    and the store is as before (no second row); when the name is not
    registered, one row with the name and the fields of the request and an
    identity no pilot row has is added to the pilot table, and that row is
    returned with status 201. *)
Theorem p_pilot_unique_name (pilot : PilotCreate) (db : DB) :
  (name_registered db (pc_name pilot) →
     p_pilot pilot db = (Failure 400 "Name already registered", db))
  ∧ (¬ name_registered db (pc_name pilot) →
     ∃ row, p_pilot pilot db = (Success 201 row, set_pilots db (pilots db ++ [row]))
            ∧ pilot_name row = pc_name pilot
            ∧ pilot_fields row = pc_fields pilot
            ∧ ∀ p, p ∈ pilots db → pilot_id p ≠ pilot_id row).
Proof.
  unfold p_pilot. run_handler. split.
  - intros Hreg.
    destruct (crud.get_pilot_by_name db (pc_name pilot)) as [p|] eqn:Hp.
    + by rewrite bool_decide_eq_true_2.
    + by apply get_pilot_by_name_None in Hp.
  - intros Hno%get_pilot_by_name_None. rewrite Hno.
    rewrite bool_decide_eq_false_2 by (by intros [? ?]).
    eexists. repeat split.
    intros p Hp. simpl.
    assert (pilot_id p < fresh_id (pilot_id <$> pilots db)); [|lia].
    apply fresh_id_above, list_elem_of_fmap. eauto.
Qed.

Lemma p_pilot_unique_name_witness :
  p_pilot new_alice sample_db = (Failure 400 "Name already registered", sample_db)
  ∧ ∃ row, p_pilot new_bob sample_db
           = (Success 201 row, set_pilots sample_db (pilots sample_db ++ [row]))
           ∧ pilot_name row = pc_name new_bob
           ∧ pilot_fields row = pc_fields new_bob
           ∧ ∀ p, p ∈ pilots sample_db → pilot_id p ≠ pilot_id row.
Proof.
  split.
  - apply (p_pilot_unique_name new_alice sample_db).
    exists alice. split; [left | reflexivity].
  - apply (p_pilot_unique_name new_bob sample_db). no_such_row.
Defined.

(** ** Flight endpoint *)

Example p_flight_ok :
  p_flight local_flight (Some 1) (Some 1) sample_db
  = (Success 201 {| flight_id := 1; flight_fields := [("route", "local")];
                    flight_pilot_id := Some 1; flight_aircraft_id := Some 1 |},
     set_flights sample_db
       [{| flight_id := 1; flight_fields := [("route", "local")];
           flight_pilot_id := Some 1; flight_aircraft_id := Some 1 |}]).
Proof. reflexivity. Qed.

Example p_flight_unknown_pilot :
  p_flight local_flight (Some 999) (Some 1) sample_db
  = (Failure 422 "Pilot ID required.", sample_db).
Proof. reflexivity. Qed.

Example p_flight_unknown_both :
  p_flight local_flight (Some 999) (Some 999) sample_db
  = (Failure 422 "Pilot ID required.", sample_db).
Proof. reflexivity. Qed.

Example p_flight_unknown_aircraft :
  p_flight local_flight (Some 1) (Some 999) sample_db
  = (Failure 422 "Aircraft ID required.", sample_db).
Proof. reflexivity. Qed.

(** The three ways [p_flight] can end, by what the two lookups find. *)
Lemma p_flight_cases flight pid aid db :
  p_flight flight pid aid db =
    match crud.get_pilot_by_id db pid, crud.get_aircraft_by_id db aid with
    | None, _ => (Failure 422 "Pilot ID required.", db)
    | Some _, None => (Failure 422 "Aircraft ID required.", db)
    | Some _, Some _ =>
        let '(row, db') := crud.create_flight db flight pid aid in
        (Success 201 row, db')
    end.
Proof.
  unfold p_flight. run_handler.
  destruct (crud.get_pilot_by_id db pid), (crud.get_aircraft_by_id db aid);
    reflexivity.
Qed.

(** C1. Create flight: when no pilot row has the pilot id, the handler
    fails with 422 "Pilot ID required." (also when the aircraft is missing
    too: the pilot is checked first); when the pilot exists and no aircraft
    row has the aircraft id, it fails with 422 "Aircraft ID required."; in
    both cases the store is as before. When both exist, one flight row
    with the two ids and the fields of the request is added and returned
    with status 201. A success, or a change of the flight table, happens
    only when both exist. *)
Theorem p_flight_validates_references
    (flight : FlightCreate) (pid aid : option Z) (db : DB) :
  (¬ pilot_exists db pid →
     p_flight flight pid aid db = (Failure 422 "Pilot ID required.", db))
  ∧ (pilot_exists db pid → ¬ aircraft_exists db aid →
     p_flight flight pid aid db = (Failure 422 "Aircraft ID required.", db))
  ∧ (pilot_exists db pid → aircraft_exists db aid →
     ∃ row, p_flight flight pid aid db
            = (Success 201 row, set_flights db (flights db ++ [row]))
            ∧ flight_pilot_id row = pid
            ∧ flight_aircraft_id row = aid
            ∧ flight_fields row = fc_fields flight)
  ∧ (∀ status row, (p_flight flight pid aid db).1 = Success status row →
     pilot_exists db pid ∧ aircraft_exists db aid)
  ∧ (flights (p_flight flight pid aid db).2 ≠ flights db →
     pilot_exists db pid ∧ aircraft_exists db aid).
Proof.
  rewrite p_flight_cases.
  destruct (crud.get_pilot_by_id db pid) as [p|] eqn:Hp.
  - assert (pilot_exists db pid)
      by (exists p; by apply get_pilot_by_id_Some).
    destruct (crud.get_aircraft_by_id db aid) as [a|] eqn:Ha.
    + assert (aircraft_exists db aid)
        by (exists a; by apply get_aircraft_by_id_Some).
      repeat split; try done. intros _ _. eexists. by repeat split.
    + apply get_aircraft_by_id_None in Ha.
      repeat split; done.
  - apply get_pilot_by_id_None in Hp.
    repeat split; done.
Qed.

Lemma p_flight_validates_references_witness :
  p_flight local_flight (Some 999) (Some 1) sample_db
    = (Failure 422 "Pilot ID required.", sample_db)
  ∧ p_flight local_flight (Some 1) (Some 999) sample_db
    = (Failure 422 "Aircraft ID required.", sample_db)
  ∧ (∃ row, p_flight local_flight (Some 1) (Some 1) sample_db
            = (Success 201 row, set_flights sample_db (flights sample_db ++ [row]))
            ∧ flight_pilot_id row = Some 1
            ∧ flight_aircraft_id row = Some 1
            ∧ flight_fields row = fc_fields local_flight)
  ∧ (pilot_exists sample_db (Some 1) ∧ aircraft_exists sample_db (Some 1))
  ∧ (pilot_exists sample_db (Some 1) ∧ aircraft_exists sample_db (Some 1)).
Proof.
  assert (pilot_exists sample_db (Some 1)) as Hpilot
    by (exists alice; split; [left | reflexivity]).
  assert (aircraft_exists sample_db (Some 1)) as Hac
    by (exists cessna; split; [left | reflexivity]).
  split; [|split; [|split; [|split]]].
  - apply (p_flight_validates_references local_flight (Some 999) (Some 1) sample_db).
    no_such_row.
  - apply (p_flight_validates_references local_flight (Some 1) (Some 999) sample_db);
      [exact Hpilot | no_such_row].
  - apply (p_flight_validates_references local_flight (Some 1) (Some 1) sample_db);
      [exact Hpilot | exact Hac].
  - destruct (p_flight_validates_references local_flight (Some 1) (Some 1) sample_db)
      as (_ & _ & _ & Honly & _).
    eapply Honly. reflexivity.
  - destruct (p_flight_validates_references local_flight (Some 1) (Some 1) sample_db)
      as (_ & _ & _ & _ & Honly).
    apply Honly. discriminate.
Defined.

(** C9. Create flight, parameters left out: with [pilot_id] omitted the
    handler fails with 422 "Pilot ID required." in every store, exactly as
    it does for a pilot id no row has; with [aircraft_id] omitted it ends
    exactly as it does for an aircraft id no row has, which is 422
    "Aircraft ID required." once the pilot exists. A parameter left out
    and a reference that does not resolve are the same outcome. *)
Theorem p_flight_missing_parameter (flight : FlightCreate) (db : DB) :
  (∀ aid, p_flight flight None aid db = (Failure 422 "Pilot ID required.", db))
  ∧ (∀ i aid, ¬ pilot_exists db (Some i) →
       p_flight flight (Some i) aid db = p_flight flight None aid db)
  ∧ (∀ pid, pilot_exists db pid →
       p_flight flight pid None db = (Failure 422 "Aircraft ID required.", db))
  ∧ (∀ pid j, ¬ aircraft_exists db (Some j) →
       p_flight flight pid (Some j) db = p_flight flight pid None db).
Proof.
  pose proof (proj2 (get_pilot_by_id_None db None) (no_pilot_without_id db))
    as Hpnone.
  pose proof (proj2 (get_aircraft_by_id_None db None) (no_aircraft_without_id db))
    as Hanone.
  repeat split.
  - intros aid. by rewrite p_flight_cases, Hpnone.
  - intros i aid Hno%get_pilot_by_id_None.
    by rewrite !p_flight_cases, Hno, Hpnone.
  - intros pid Hex. rewrite p_flight_cases, Hanone.
    destruct (crud.get_pilot_by_id db pid) eqn:Hp; [done|].
    by apply get_pilot_by_id_None in Hp.
  - intros pid j Hno%get_aircraft_by_id_None.
    by rewrite !p_flight_cases, Hno, Hanone.
Qed.

Lemma p_flight_missing_parameter_witness :
  p_flight local_flight (Some 999) (Some 1) sample_db
    = p_flight local_flight None (Some 1) sample_db
  ∧ p_flight local_flight (Some 1) None sample_db
    = (Failure 422 "Aircraft ID required.", sample_db)
  ∧ p_flight local_flight (Some 1) (Some 999) sample_db
    = p_flight local_flight (Some 1) None sample_db.
Proof.
  destruct (p_flight_missing_parameter local_flight sample_db)
    as (_ & Hpilot & Hnone & Hac).
  split; [|split].
  - apply Hpilot. no_such_row.
  - apply Hnone. exists alice. split; [left | reflexivity].
  - apply Hac. no_such_row.
Defined.

(** ** Logbook endpoints *)

Example g_logbook_pilot_1 :
  g_logbook (Some 1) sample_db = (Success 200 [layout_1], sample_db).
Proof. reflexivity. Qed.

Example del_logbook_own :
  del_logbook 1 1 sample_db = (Success 202 (), set_logbooks sample_db [layout_2]).
Proof. reflexivity. Qed.

(** Logbook 2 belongs to pilot 2: pilot 1 cannot remove it. *)
Example del_logbook_of_another_pilot :
  del_logbook 1 2 sample_db = (Success 202 (), sample_db).
Proof. reflexivity. Qed.

(** Writing a table back as it is changes nothing. *)
Lemma set_logbooks_same db : set_logbooks db (logbooks db) = db.
Proof. by destruct db. Qed.

(** What [del_logbook] does to the store. *)
Lemma del_logbook_run pid lid db :
  del_logbook pid lid db
  = (Success 202 (),
     set_logbooks db (filter (λ l, ¬ targeted pid lid l) (logbooks db))).
Proof. reflexivity. Qed.

(** C5. Delete logbook: the deletion is scoped to both identifiers. The
    rows of the logbook table afterwards are the rows before that do not
    match both [pilot_id] and [logbook_id]; a row of another pilot stays,
    also when its logbook id is the one asked for; the rows that do not
    match both are the same before and after, in the same order; the other
    tables are as before. *)
Theorem del_logbook_scoped (pid lid : Z) (db : DB) :
  let db' := (del_logbook pid lid db).2 in
  (∀ l, l ∈ logbooks db' ↔ l ∈ logbooks db ∧ ¬ targeted pid lid l)
  ∧ (∀ l, l ∈ logbooks db → logbook_pilot_id l ≠ pid → l ∈ logbooks db')
  ∧ filter (λ l, ¬ targeted pid lid l) (logbooks db')
    = filter (λ l, ¬ targeted pid lid l) (logbooks db)
  ∧ pilots db' = pilots db
  ∧ aircraft db' = aircraft db
  ∧ flights db' = flights db.
Proof.
  rewrite del_logbook_run. simpl.
  assert (∀ l, l ∈ filter (λ l, ¬ targeted pid lid l) (logbooks db)
               ↔ l ∈ logbooks db ∧ ¬ targeted pid lid l) as Hrows.
  { intros l. rewrite list_elem_of_filter. tauto. }
  repeat split; try apply Hrows; try done.
  - intros l Hin Hother. apply list_elem_of_filter.
    split; [|done]. by intros [? _].
  - apply filter_twice.
Qed.

(** C8. Delete logbook: the answer is 202 in every store and for every
    pair of identifiers; when no row matches the pair, nothing is removed
    and the answer is still 202, with no error. *)
Theorem del_logbook_always_accepted (pid lid : Z) (db : DB) :
  (del_logbook pid lid db).1 = Success 202 ()
  ∧ ((∀ l, l ∈ logbooks db → ¬ targeted pid lid l) →
     del_logbook pid lid db = (Success 202 (), db)).
Proof.
  rewrite del_logbook_run. split; [done|].
  intros Hnone. f_equal.
  rewrite filter_all by done. apply set_logbooks_same.
Qed.

Lemma del_logbook_always_accepted_witness :
  (del_logbook 1 2 sample_db).1 = Success 202 ()
  ∧ del_logbook 1 2 sample_db = (Success 202 (), sample_db).
Proof.
  split.
  - apply (del_logbook_always_accepted 1 2 sample_db).
  - apply (del_logbook_always_accepted 1 2 sample_db).
    intros l Hin [Hp Hl]. each_row Hin.
Defined.

(** ** Aircraft endpoints *)

Example p_aircraft_no_pilot :
  p_aircraft 42 {| acc_tail := str_of "N1"; acc_fields := [] |} empty_db
  = (Success 201 {| aircraft_id := 1; aircraft_tail := str_of "N1";
                    aircraft_fields := []; aircraft_pilot_id := 42 |},
     set_aircraft empty_db
       [{| aircraft_id := 1; aircraft_tail := str_of "N1";
           aircraft_fields := []; aircraft_pilot_id := 42 |}]).
Proof. reflexivity. Qed.

(** C6. Create aircraft: for every pilot id, request and store, whether
    or not a pilot row has the id, the handler adds one aircraft row owned
    by that pilot id, with the tail number and the fields of the request,
    and returns it with status 201; the pilot table is never looked at. In
    the empty store, where no pilot exists, the creation succeeds all the
    same. *)
Theorem p_aircraft_unconditional
    (pilot_id' : Z) (aircraft' : AircraftCreate) (db : DB) :
  (∃ row, p_aircraft pilot_id' aircraft' db
          = (Success 201 row, set_aircraft db (aircraft db ++ [row]))
          ∧ aircraft_pilot_id row = pilot_id'
          ∧ aircraft_tail row = acc_tail aircraft'
          ∧ aircraft_fields row = acc_fields aircraft')
  ∧ (∀ ps, p_aircraft pilot_id' aircraft' (set_pilots db ps)
           = (let '(r, db') := p_aircraft pilot_id' aircraft' db in
              (r, set_pilots db' ps)))
  ∧ (¬ pilot_exists empty_db (Some pilot_id')
     ∧ ∃ row, (p_aircraft pilot_id' aircraft' empty_db).1 = Success 201 row).
Proof.
  split; [|split; [|split]].
  - eexists. by repeat split.
  - done.
  - no_such_row.
  - by eexists.
Qed.

Lemma del_logbook_scoped_witness :
  layout_2 ∈ logbooks (del_logbook 1 2 sample_db).2.
Proof.
  destruct (del_logbook_scoped 1 2 sample_db) as (_ & Hother & _).
  apply Hother.
  - right. left.
  - discriminate.
Defined.

(** ** Search by tail number *)

Section search.
Context `{Builtins}.

(** The two cases of a Latin letter have the same uppercase form. *)
Lemma char_upper_same_ascii_letter (c d : N) :
  same_ascii_letter c d → char_upper c = char_upper d.
Proof.
  unfold same_ascii_letter, char_upper, is_ascii_lower, is_ascii_upper.
  intros [->|[[Hc ->]|[Hc ->]]]; [done| |].
  - apply andb_true_iff in Hc as [Hlo%N.leb_le Hhi%N.leb_le].
    assert ((c <? 128)%N = true) as -> by (apply N.ltb_lt; lia).
    assert ((c - 32 <? 128)%N = true) as -> by (apply N.ltb_lt; lia).
    assert ((97 <=? c)%N = true) as -> by (apply N.leb_le; lia).
    assert ((c <=? 122)%N = true) as -> by (apply N.leb_le; lia).
    assert ((97 <=? c - 32)%N = false) as -> by (apply N.leb_gt; lia).
    done.
  - apply andb_true_iff in Hc as [Hlo%N.leb_le Hhi%N.leb_le].
    assert ((c <? 128)%N = true) as -> by (apply N.ltb_lt; lia).
    assert ((c + 32 <? 128)%N = true) as -> by (apply N.ltb_lt; lia).
    assert ((97 <=? c)%N = false) as -> by (apply N.leb_gt; lia).
    assert ((97 <=? c + 32)%N = true) as -> by (apply N.leb_le; lia).
    assert ((c + 32 <=? 122)%N = true) as -> by (apply N.leb_le; lia).
    simpl. f_equal. lia.
Qed.

(** Strings that differ only in the case of a-z, A-Z have the same
    uppercase form. *)
Lemma upper_differ_only_in_ascii_case (s1 s2 : str) :
  differ_only_in_ascii_case s1 s2 → upper s1 = upper s2.
Proof.
  unfold differ_only_in_ascii_case, upper.
  induction 1 as [|c d s1 s2 Hcd _ IH]; [done|].
  rewrite !bind_cons, IH. f_equal. by apply char_upper_same_ascii_letter.
Qed.

(** On an ASCII string [upper] is the uppercase form in the plain sense. *)
Lemma upper_is_ascii (s : str) : is_ascii s → upper s = ascii_upper s.
Proof.
  unfold is_ascii, upper, ascii_upper.
  induction 1 as [|c s Hc _ IH]; [done|].
  rewrite bind_cons, fmap_cons, IH. unfold char_upper.
  apply N.ltb_lt in Hc as ->. by destruct (is_ascii_lower c).
Qed.

(** The search looks at the uppercase form of its argument only. *)
Lemma search_tn_upper (s1 s2 : str) (db : DB) :
  upper s1 = upper s2 → search_tn (Some s1) db = search_tn (Some s2) db.
Proof. unfold search_tn. run_handler. by intros ->. Qed.

End search.

Example upper_n12345 :
  @upper sample_builtins (str_of "n12345") = str_of "N12345".
Proof. reflexivity. Qed.

Example search_tn_lowercase :
  @search_tn sample_builtins (Some (str_of "n12345")) sample_db
  = (Success 200 (Some cessna), sample_db).
Proof. reflexivity. Qed.

Example search_tn_unknown :
  @search_tn sample_builtins (Some (str_of "g-abcd")) sample_db
  = (Success 200 None, sample_db).
Proof. reflexivity. Qed.

(** C4, as stated, fails: the small and the capital sharp s differ only
    in letter case, yet in a store with an aircraft of tail "SS" the search
    for the small one finds that aircraft and the search for the capital one
    finds nothing, because the two have different uppercase forms. *)
Lemma search_tn_sharp_s_counterexample :
  differ_only_in_case [small_sharp_s] [capital_sharp_s]
  ∧ @search_tn python_sharp_s (Some [small_sharp_s]) ss_db
    = (Success 200 (Some ss_aircraft), ss_db)
  ∧ @search_tn python_sharp_s (Some [capital_sharp_s]) ss_db
    = (Success 200 None, ss_db)
  ∧ @search_tn python_sharp_s (Some [small_sharp_s]) ss_db
    ≠ @search_tn python_sharp_s (Some [capital_sharp_s]) ss_db.
Proof.
  split; [|split; [|split]]; [|reflexivity|reflexivity|discriminate].
  constructor; [|constructor]. right. by left.
Qed.

(** C4, amended. Search by tail number is insensitive to the case of the
    letters a-z, A-Z: the handler looks up the uppercase form of the tail
    it is given, which on an ASCII string is the string with every letter
    a-z replaced by its capital; so in every store two tail strings with
    the same uppercase form get the same answer, and so do two strings
    that differ only in the case of the letters a-z, A-Z. This holds
    whatever the uppercase mapping does above ASCII. *)
Theorem search_tn_ascii_case_insensitive `{Builtins} (s1 s2 : str) (db : DB) :
  search_tn (Some s1) db
    = (Success 200 (crud.get_aircraft_by_tail db (upper s1)), db)
  ∧ (is_ascii s1 → upper s1 = ascii_upper s1)
  ∧ (upper s1 = upper s2 → search_tn (Some s1) db = search_tn (Some s2) db)
  ∧ (differ_only_in_ascii_case s1 s2 →
     search_tn (Some s1) db = search_tn (Some s2) db).
Proof.
  split; [reflexivity|]. split; [apply upper_is_ascii|].
  split; [apply search_tn_upper|].
  intros Hcase. by apply search_tn_upper, upper_differ_only_in_ascii_case.
Qed.

Lemma search_tn_ascii_case_insensitive_witness :
  @upper sample_builtins (str_of "n12345") = ascii_upper (str_of "n12345")
  ∧ ascii_upper (str_of "n12345") = str_of "N12345"
  ∧ differ_only_in_ascii_case (str_of "n12345") (str_of "N12345")
  ∧ @search_tn sample_builtins (Some (str_of "n12345")) sample_db
    = @search_tn sample_builtins (Some (str_of "N12345")) sample_db
  ∧ @search_tn sample_builtins (Some (str_of "n12345")) sample_db
    = (Success 200 (Some cessna), sample_db).
Proof.
  assert (differ_only_in_ascii_case (str_of "n12345") (str_of "N12345"))
    as Hcase.
  { constructor; [right; left; split; reflexivity|].
    repeat (constructor; [by left|]). constructor. }
  destruct (@search_tn_ascii_case_insensitive sample_builtins
              (str_of "n12345") (str_of "N12345") sample_db)
    as (Hrun & Hupper & Hsame & Hins).
  split; [|split; [reflexivity|split; [exact Hcase|split]]].
  - apply Hupper. by repeat constructor.
  - apply Hins. exact Hcase.
  - rewrite (Hsame eq_refl). reflexivity.
Defined.

(** C10. The path-parameter handlers: with [pilot_id] bound, as a path
    parameter always is, [g_logbook] answers 200 with the logbooks of that
    pilot, and with [ac_tail] bound [search_tn] answers 200 with the result
    of the lookup of the uppercase tail; neither answers 400. The 400 of
    each handler is the answer to an unbound parameter and to nothing
    else. *)
Theorem path_parameter_always_bound `{Builtins} (db : DB) :
  (∀ i, g_logbook (Some i) db
        = (Success 200 (crud.get_logbook_by_pilot db i), db))
  ∧ (∀ s, search_tn (Some s) db
          = (Success 200 (crud.get_aircraft_by_tail db (upper s)), db))
  ∧ (∀ pid detail, (g_logbook pid db).1 = Failure 400 detail → pid = None)
  ∧ (∀ tail detail, (search_tn tail db).1 = Failure 400 detail → tail = None)
  ∧ g_logbook None db = (Failure 400 "Pilot ID needed", db)
  ∧ search_tn None db = (Failure 400 "Missing Tail Number", db).
Proof.
  repeat split.
  - by intros [i|] detail.
  - by intros [s|] detail.
Qed.

Lemma path_parameter_always_bound_witness :
  (g_logbook None sample_db).1 = Failure 400 "Pilot ID needed"
  ∧ (@None Z) = None
  ∧ (@search_tn sample_builtins None sample_db).1 = Failure 400 "Missing Tail Number"
  ∧ (@None str) = None.
Proof.
  destruct (@path_parameter_always_bound sample_builtins sample_db)
    as (_ & _ & Hpilot & Htail & _).
  split; [reflexivity|]. split; [|split; [reflexivity|]].
  - apply (Hpilot None "Pilot ID needed"). reflexivity.
  - apply (Htail None "Missing Tail Number"). reflexivity.
Defined.

(** ** Upload *)

Example upload_prints :
  @upload_logbook_file sample_builtins sample_pandas [] (Some 1) sample_world
  = (Success 201 (), {| world_db := sample_db; stdout := ["count 0"] |}).
Proof. reflexivity. Qed.

Example upload_without_pilot_id :
  @upload_logbook_file sample_builtins sample_pandas [] None sample_world
  = (Failure 422 "Pilot ID required.", sample_world).
Proof. reflexivity. Qed.

(** The ways the upload handler can end: the answer, and what was
    printed. The store is not among the things that can differ. *)
Lemma upload_logbook_file_cases `{Builtins} `{Pandas}
    (file : list Byte.byte) (pid : option Z) (w : World) :
  (∃ line, upload_logbook_file file pid w
           = (Success 201 (),
              {| world_db := world_db w; stdout := stdout w ++ [line] |}))
  ∨ (∃ status detail, upload_logbook_file file pid w
                      = (Failure status detail, w)).
Proof.
  unfold upload_logbook_file, or_fail, print. run_handler.
  destruct pid as [i|]; simpl; [|by eauto].
  destruct (decode_utf8_sig file) as [text|]; simpl; [|by eauto].
  destruct (read_csv text [str_of "Date"]) as [frame|]; simpl; [|by eauto].
  destruct (getitem (fillna frame 0) (str_of "Aircraft")) as [column|];
    simpl; by eauto.
Qed.

(** C7. Upload: for every file and pilot id, whatever the decoder and
    pandas do with the file, the store after the handler is the store
    before it: the pilot, aircraft, flight and logbook tables are the
    same, whether the handler answers 201, 422 or fails on the file. A
    success prints one line and returns nothing. *)
Theorem upload_logbook_file_no_persistence `{Builtins} `{Pandas}
    (file : list Byte.byte) (pid : option Z) (w : World) :
  let w' := (upload_logbook_file file pid w).2 in
  world_db w' = world_db w
  ∧ pilots (world_db w') = pilots (world_db w)
  ∧ aircraft (world_db w') = aircraft (world_db w)
  ∧ flights (world_db w') = flights (world_db w)
  ∧ logbooks (world_db w') = logbooks (world_db w)
  ∧ ((upload_logbook_file file pid w).1 = Success 201 ()
     ∨ ∃ status detail,
         (upload_logbook_file file pid w).1 = Failure status detail).
Proof.
  destruct (upload_logbook_file_cases file pid w)
    as [[line ->]|(status & detail & ->)]; simpl.
  - repeat split; by left.
  - repeat split. right. by eauto.
Qed.


(** * Further properties of the handlers *)

(** ** What each handler does to the store *)

Lemma g_pilot_run i db :
  g_pilot i db
  = match crud.get_pilot_by_id db (Some i) with
    | Some p => (Success 200 p, db)
    | None => (Failure 422 "Pilot ID required.", db)
    end.
Proof.
  unfold g_pilot. run_handler. by destruct (crud.get_pilot_by_id db (Some i)).
Qed.

Lemma p_pilot_run pilot db :
  p_pilot pilot db
  = match crud.get_pilot_by_name db (pc_name pilot) with
    | Some _ => (Failure 400 "Name already registered", db)
    | None => let '(row, db') := crud.create_pilot db pilot in
              (Success 201 row, db')
    end.
Proof.
  unfold p_pilot. run_handler.
  by destruct (crud.get_pilot_by_name db (pc_name pilot)).
Qed.

Lemma p_logbook_run logbook db :
  p_logbook logbook db
  = let '(row, db') := crud.create_logbook db logbook in (Success 201 row, db').
Proof. reflexivity. Qed.

Lemma p_aircraft_run i aircraft' db :
  p_aircraft i aircraft' db
  = let '(row, db') := crud.create_aircraft db aircraft' i in
    (Success 201 row, db').
Proof. reflexivity. Qed.

(** The first row with a property that no earlier row has is found at the
    end of the table. *)
Lemma first_match_snoc {A} (P : A → Prop) `{!∀ x, Decision (P x)}
    (l : list A) (x : A) :
  (∀ y, y ∈ l → ¬ P y) → P x → head (filter P (l ++ [x])) = Some x.
Proof.
  intros Hnone Hx. rewrite filter_app.
  assert (filter P l = []) as ->.
  { apply head_None. by apply first_match_None. }
  by rewrite filter_cons_True.
Qed.

(** A row found in a table is found in the table with rows added after. *)
Lemma first_match_app {A} (P : A → Prop) `{!∀ x, Decision (P x)}
    (l k : list A) (x : A) :
  head (filter P l) = Some x → head (filter P (l ++ k)) = Some x.
Proof.
  intros Hx. rewrite filter_app.
  destruct (filter P l) as [|y l']; by simplify_eq/=.
Qed.

(** ** Pilots: register, then fetch *)

(** X1. A pilot that [p_pilot] has just created is what [g_pilot] returns
    for the id of the created row, and every pilot that [g_pilot] returned
    before the creation is still returned for its id. *)
Theorem p_pilot_then_g_pilot (pilot : PilotCreate) (db db' : DB) (row : Pilot) :
  p_pilot pilot db = (Success 201 row, db') →
  g_pilot (pilot_id row) db' = (Success 200 row, db')
  ∧ ∀ i p, g_pilot i db = (Success 200 p, db) →
           g_pilot i db' = (Success 200 p, db').
Proof.
  rewrite p_pilot_run.
  destruct (crud.get_pilot_by_name db (pc_name pilot)); [done|].
  intros [= <- <-]. split.
  - rewrite g_pilot_run. unfold crud.get_pilot_by_id. simpl.
    rewrite first_match_snoc; [done| |done].
    intros p Hp [= Hid].
    assert (pilot_id p < fresh_id (pilot_id <$> pilots db)); [|lia].
    apply fresh_id_above, list_elem_of_fmap. eauto.
  - intros i p. rewrite !g_pilot_run.
    destruct (crud.get_pilot_by_id db (Some i)) as [q|] eqn:Hq; [|done].
    intros [= ->]. unfold crud.get_pilot_by_id in *. simpl.
    by rewrite (first_match_app _ _ _ p Hq).
Qed.

Lemma p_pilot_then_g_pilot_witness :
  g_pilot 2 (p_pilot new_bob sample_db).2
    = (Success 200 {| pilot_id := 2; pilot_name := str_of "Bob";
                      pilot_fields := [("rating", "PPL")] |},
       (p_pilot new_bob sample_db).2)
  ∧ g_pilot 1 (p_pilot new_bob sample_db).2
    = (Success 200 alice, (p_pilot new_bob sample_db).2).
Proof.
  destruct (p_pilot_then_g_pilot new_bob sample_db (p_pilot new_bob sample_db).2
              {| pilot_id := 2; pilot_name := str_of "Bob";
                 pilot_fields := [("rating", "PPL")] |} eq_refl) as [Hnew Hold].
  split; [exact Hnew|]. apply Hold. reflexivity.
Defined.

(** X2. Once [p_pilot] has created a pilot, every further request with the
    same name, whatever its other fields, fails with 400 "Name already
    registered" and leaves the store as it is. *)
Theorem p_pilot_twice (pilot again : PilotCreate) (db db' : DB) (row : Pilot) :
  p_pilot pilot db = (Success 201 row, db') →
  pc_name again = pc_name pilot →
  p_pilot again db' = (Failure 400 "Name already registered", db').
Proof.
  rewrite p_pilot_run.
  destruct (crud.get_pilot_by_name db (pc_name pilot)); [done|].
  intros [= <- <-] Hname.
  rewrite p_pilot_run, Hname.
  destruct (crud.get_pilot_by_name _ (pc_name pilot)) eqn:Hrow; [done|].
  apply get_pilot_by_name_None in Hrow. destruct Hrow.
  eexists. split; [apply elem_of_app; right; left|]. done.
Qed.

Lemma p_pilot_twice_witness :
  p_pilot new_bob (p_pilot new_bob sample_db).2
  = (Failure 400 "Name already registered", (p_pilot new_bob sample_db).2).
Proof.
  by apply (p_pilot_twice new_bob new_bob sample_db _
              {| pilot_id := 2; pilot_name := str_of "Bob";
                 pilot_fields := [("rating", "PPL")] |}).
Defined.

(** ** Logbooks: define, list, remove *)

Lemma g_logbook_run i db :
  g_logbook (Some i) db = (Success 200 (crud.get_logbook_by_pilot db i), db).
Proof. reflexivity. Qed.

(** No logbook row has the identity the next row will get. *)
Lemma logbook_id_fresh db l :
  l ∈ logbooks db → logbook_id l ≠ fresh_id (logbook_id <$> logbooks db).
Proof.
  intros Hl.
  assert (logbook_id l < fresh_id (logbook_id <$> logbooks db)); [|lia].
  apply fresh_id_above, list_elem_of_fmap. eauto.
Qed.

(** X3. [p_logbook] always answers 201 with a row that carries the pilot
    id and the layout of the request; the row was not listed before, and
    afterwards [g_logbook] for that pilot lists the rows it listed before
    and the new row, in whatever order; for every other pilot it answers
    what it answered before. *)
Theorem p_logbook_then_g_logbook (logbook : LogbookCreate) (db : DB) :
  ∃ row db' ls ls',
    p_logbook logbook db = (Success 201 row, db')
    ∧ logbook_pilot_id row = lc_pilot_id logbook
    ∧ logbook_layout row = lc_layout logbook
    ∧ g_logbook (Some (lc_pilot_id logbook)) db = (Success 200 ls, db)
    ∧ g_logbook (Some (lc_pilot_id logbook)) db' = (Success 200 ls', db')
    ∧ (row ∉ ls)
    ∧ (ls' ≡ₚ row :: ls)
    ∧ (∀ l, l ∈ ls' ↔ l = row ∨ l ∈ ls)
    ∧ (∀ q, q ≠ lc_pilot_id logbook →
            (g_logbook (Some q) db').1 = (g_logbook (Some q) db).1).
Proof.
  set (row := (crud.create_logbook db logbook).1).
  set (db' := (crud.create_logbook db logbook).2).
  set (ls := crud.get_logbook_by_pilot db (lc_pilot_id logbook)).
  assert (crud.get_logbook_by_pilot db' (lc_pilot_id logbook) = ls ++ [row])
    as Hafter.
  { unfold crud.get_logbook_by_pilot. simpl.
    by rewrite filter_app, filter_cons_True. }
  assert (ls ++ [row] ≡ₚ row :: ls) as Hperm
    by (symmetry; apply Permutation_cons_append).
  exists row, db', ls, (ls ++ [row]).
  do 3 (split; [reflexivity|]). split; [apply g_logbook_run|].
  split; [by rewrite g_logbook_run, Hafter|]. split; [|split; [done|split]].
  - intros [_ Hin]%list_elem_of_filter.
    by apply (logbook_id_fresh db row).
  - intros l. by rewrite Hperm, elem_of_cons.
  - intros q Hq. rewrite !g_logbook_run.
    unfold crud.get_logbook_by_pilot. simpl.
    rewrite filter_app, filter_cons_False by (simpl; congruence).
    by rewrite filter_nil, app_nil_r.
Qed.

Lemma p_logbook_then_g_logbook_witness :
  ∃ row db' ls ls',
    p_logbook {| lc_pilot_id := 1; lc_layout := [] |} sample_db
      = (Success 201 row, db')
    ∧ g_logbook (Some 1) sample_db = (Success 200 ls, sample_db)
    ∧ g_logbook (Some 1) db' = (Success 200 ls', db')
    ∧ (ls' ≡ₚ row :: ls)
    ∧ (g_logbook (Some 2) db').1 = (g_logbook (Some 2) sample_db).1.
Proof.
  destruct (p_logbook_then_g_logbook {| lc_pilot_id := 1; lc_layout := [] |}
              sample_db)
    as (row & db' & ls & ls' & Hrun & _ & _ & Hbefore & Hafter & _ & Hperm
        & _ & Hother).
  exists row, db', ls, ls'. repeat split; try done.
  apply Hother. discriminate.
Defined.

(** X4. Removing the logbook that [p_logbook] has just created, with the
    pilot id of the request and the id of the returned row, gives back the
    store as it was before the creation. *)
Theorem p_logbook_then_del_logbook
    (logbook : LogbookCreate) (db db' : DB) (row : Logbook) :
  p_logbook logbook db = (Success 201 row, db') →
  del_logbook (lc_pilot_id logbook) (logbook_id row) db' = (Success 202 (), db).
Proof.
  rewrite p_logbook_run. intros [= <- <-]. rewrite del_logbook_run. simpl.
  rewrite filter_app, filter_all, filter_cons_False, filter_nil, app_nil_r.
  - by destruct db.
  - intros Hkeep. by apply Hkeep.
  - intros l Hl [_ Hid]. by apply (logbook_id_fresh db l).
Qed.

Lemma p_logbook_then_del_logbook_witness :
  del_logbook 1 3 (p_logbook {| lc_pilot_id := 1; lc_layout := [] |} sample_db).2
  = (Success 202 (), sample_db).
Proof.
  by apply (p_logbook_then_del_logbook {| lc_pilot_id := 1; lc_layout := [] |}
              sample_db _
              {| logbook_id := 3; logbook_pilot_id := 1; logbook_layout := [] |}).
Defined.

(** X5. After [del_logbook] for a pair (pilot, logbook), the same request
    again changes nothing more; [g_logbook] for that pilot lists no row
    with that logbook id; and [g_logbook] for every other pilot lists what
    it listed before the removal. *)
Theorem del_logbook_then_g_logbook (pid lid : Z) (db : DB) :
  let db' := (del_logbook pid lid db).2 in
  del_logbook pid lid db' = (Success 202 (), db')
  ∧ (∀ ls l, g_logbook (Some pid) db' = (Success 200 ls, db') →
             l ∈ ls → logbook_id l ≠ lid)
  ∧ (∀ q, q ≠ pid → (g_logbook (Some q) db').1 = (g_logbook (Some q) db).1).
Proof.
  rewrite del_logbook_run. cbn [snd]. cbv zeta. repeat split.
  - rewrite del_logbook_run. simpl. by rewrite filter_twice.
  - intros ls l. rewrite g_logbook_run. intros [= <-].
    unfold crud.get_logbook_by_pilot. simpl.
    rewrite !list_elem_of_filter. intros (Hp & Hkeep & _) Hid.
    by apply Hkeep.
  - intros q Hq. rewrite !g_logbook_run. simpl. f_equal.
    unfold crud.get_logbook_by_pilot. simpl.
    apply list_filter_filter_l. intros l <- [? _]. done.
Qed.

Lemma del_logbook_then_g_logbook_witness :
  logbook_id layout_2 ≠ 1
  ∧ (g_logbook (Some 2) (del_logbook 1 1 sample_db).2).1
    = (g_logbook (Some 2) sample_db).1.
Proof.
  destruct (del_logbook_then_g_logbook 1 1 sample_db) as (_ & _ & Hother).
  destruct (del_logbook_then_g_logbook 2 1 sample_db) as (_ & Hgone & _).
  split.
  - apply (Hgone [layout_2] layout_2); [reflexivity | left].
  - apply Hother. discriminate.
Defined.

(** ** Aircraft: register, then search *)

Section aircraft.
Context `{Builtins}.

Lemma search_tn_run (s : str) (db : DB) :
  search_tn (Some s) db
  = (Success 200 (crud.get_aircraft_by_tail db (upper s)), db).
Proof. reflexivity. Qed.

(** The uppercase form of an ASCII string has no letter a-z left. *)
Lemma upper_ascii_no_lower (s : str) (c : N) :
  is_ascii s → c ∈ upper s → is_ascii_lower c = false.
Proof.
  unfold is_ascii, upper. induction 1 as [|d s Hd _ IH]; [by intros ?%elem_of_nil|].
  rewrite bind_cons, elem_of_app. intros [Hc|Hc]; [|by apply IH].
  unfold char_upper in Hc. apply N.ltb_lt in Hd as Hlt. rewrite Hlt in Hc.
  destruct (is_ascii_lower d) eqn:Hlow; apply list_elem_of_singleton in Hc as ->;
    [|done].
  unfold is_ascii_lower in *.
  apply andb_true_iff in Hlow as [Hlo%N.leb_le Hhi%N.leb_le].
  apply andb_false_iff. left. apply N.leb_gt. lia.
Qed.

End aircraft.

(** X6. What [search_tn] answers: always 200, the store untouched; an
    aircraft in the answer is a row of the aircraft table whose stored tail
    is the uppercase form of the tail asked for; the answer is empty exactly
    when no row has that uppercase form as its tail. *)
Theorem search_tn_finds_uppercase_tail `{Builtins} (s : str) (db : DB) :
  ∃ found,
    search_tn (Some s) db = (Success 200 found, db)
    ∧ (∀ a, found = Some a → a ∈ aircraft db ∧ aircraft_tail a = upper s)
    ∧ (found = None ↔ ∀ a, a ∈ aircraft db → aircraft_tail a ≠ upper s).
Proof.
  exists (crud.get_aircraft_by_tail db (upper s)).
  split; [apply search_tn_run|]. unfold crud.get_aircraft_by_tail. split.
  - intros a Ha. by apply first_match_Some in Ha.
  - by rewrite first_match_None.
Qed.

Lemma search_tn_finds_uppercase_tail_witness :
  cessna ∈ aircraft sample_db
  ∧ aircraft_tail cessna = @upper sample_builtins (str_of "n12345").
Proof.
  destruct (@search_tn_finds_uppercase_tail sample_builtins
              (str_of "n12345") sample_db) as (found & Hrun & Hsome & _).
  apply Hsome. by injection Hrun as <-.
Defined.

(** X7. A stored tail with a lowercase letter a-z in it is out of reach:
    whatever ASCII string is searched for, also the stored tail itself,
    [search_tn] does not return that aircraft. *)
Theorem search_tn_never_finds_lowercase_tail `{Builtins}
    (s : str) (db db' : DB) (a : Aircraft) (c : N) :
  is_ascii s →
  c ∈ aircraft_tail a → is_ascii_lower c = true →
  search_tn (Some s) db ≠ (Success 200 (Some a), db').
Proof.
  intros Hs Hc Hlow. rewrite search_tn_run. intros [= Ha _].
  unfold crud.get_aircraft_by_tail in Ha.
  apply first_match_Some in Ha as [_ Htail]. rewrite Htail in Hc.
  by rewrite (upper_ascii_no_lower s c Hs Hc) in Hlow.
Qed.

Lemma search_tn_never_finds_lowercase_tail_witness :
  @search_tn sample_builtins (Some (str_of "n12345"))
     (set_aircraft sample_db [lowercase_cessna])
  ≠ (Success 200 (Some lowercase_cessna), set_aircraft sample_db [lowercase_cessna]).
Proof.
  apply (@search_tn_never_finds_lowercase_tail sample_builtins
           (str_of "n12345") _ _ lowercase_cessna 110%N).
  - by repeat constructor.
  - left.
  - reflexivity.
Defined.

(** X8. An aircraft created by [p_aircraft] with a tail that no aircraft
    had yet is returned by [search_tn] for every string whose uppercase
    form is that tail. *)
Theorem p_aircraft_then_search_tn `{Builtins}
    (i : Z) (aircraft' : AircraftCreate) (db db' : DB) (row : Aircraft) (s : str) :
  p_aircraft i aircraft' db = (Success 201 row, db') →
  upper s = acc_tail aircraft' →
  (∀ a, a ∈ aircraft db → aircraft_tail a ≠ acc_tail aircraft') →
  search_tn (Some s) db' = (Success 200 (Some row), db').
Proof.
  rewrite p_aircraft_run. intros [= <- <-] Hs Hnew.
  rewrite search_tn_run, Hs. unfold crud.get_aircraft_by_tail. simpl.
  by rewrite first_match_snoc.
Qed.

Lemma p_aircraft_then_search_tn_witness :
  @search_tn sample_builtins (Some (str_of "g-abcd"))
     (p_aircraft 1 new_piper sample_db).2
  = (Success 200 (Some {| aircraft_id := 2; aircraft_tail := str_of "G-ABCD";
                          aircraft_fields := []; aircraft_pilot_id := 1 |}),
     (p_aircraft 1 new_piper sample_db).2).
Proof.
  apply (@p_aircraft_then_search_tn sample_builtins 1 new_piper sample_db).
  - reflexivity.
  - reflexivity.
  - intros a Ha. each_row Ha.
Defined.

(** ** From registration to a flight *)

(** X9. Registering a pilot under a name not yet taken, then an aircraft
    under the id of the created pilot, then a flight under the two returned
    ids succeeds three times with 201, in every store, and the flight row
    refers to the two created rows. *)
Theorem register_then_fly
    (pilot : PilotCreate) (aircraft' : AircraftCreate) (flight : FlightCreate)
    (db : DB) :
  ¬ name_registered db (pc_name pilot) →
  ∃ p db1 a db2 f db3,
    p_pilot pilot db = (Success 201 p, db1)
    ∧ p_aircraft (pilot_id p) aircraft' db1 = (Success 201 a, db2)
    ∧ p_flight flight (Some (pilot_id p)) (Some (aircraft_id a)) db2
      = (Success 201 f, db3)
    ∧ aircraft_pilot_id a = pilot_id p
    ∧ flight_pilot_id f = Some (pilot_id p)
    ∧ flight_aircraft_id f = Some (aircraft_id a)
    ∧ p ∈ pilots db3 ∧ a ∈ aircraft db3 ∧ f ∈ flights db3.
Proof.
  intros Hfree%get_pilot_by_name_None.
  set (p := (crud.create_pilot db pilot).1).
  set (db1 := (crud.create_pilot db pilot).2).
  set (a := (crud.create_aircraft db1 aircraft' (pilot_id p)).1).
  set (db2 := (crud.create_aircraft db1 aircraft' (pilot_id p)).2).
  set (f := (crud.create_flight db2 flight (Some (pilot_id p))
               (Some (aircraft_id a))).1).
  set (db3 := (crud.create_flight db2 flight (Some (pilot_id p))
                 (Some (aircraft_id a))).2).
  exists p, db1, a, db2, f, db3.
  assert (p ∈ pilots db2) as Hp by (apply elem_of_app; right; left).
  assert (a ∈ aircraft db2) as Ha by (apply elem_of_app; right; left).
  split; [by rewrite p_pilot_run, Hfree|]. split; [done|]. split.
  - rewrite p_flight_cases.
    destruct (crud.get_pilot_by_id db2 (Some (pilot_id p))) eqn:Hlp.
    + destruct (crud.get_aircraft_by_id db2 (Some (aircraft_id a))) eqn:Hla;
        [done|].
      apply get_aircraft_by_id_None in Hla. destruct Hla. by exists a.
    + apply get_pilot_by_id_None in Hlp. destruct Hlp. by exists p.
  - repeat split; try done. apply elem_of_app; right; left.
Qed.

Lemma register_then_fly_witness :
  ∃ p db1 a db2 f db3,
    p_pilot new_bob sample_db = (Success 201 p, db1)
    ∧ p_aircraft (pilot_id p) new_piper db1 = (Success 201 a, db2)
    ∧ p_flight local_flight (Some (pilot_id p)) (Some (aircraft_id a)) db2
      = (Success 201 f, db3)
    ∧ aircraft_pilot_id a = pilot_id p
    ∧ flight_pilot_id f = Some (pilot_id p)
    ∧ flight_aircraft_id f = Some (aircraft_id a)
    ∧ p ∈ pilots db3 ∧ a ∈ aircraft db3 ∧ f ∈ flights db3.
Proof.
  apply (register_then_fly new_bob new_piper local_flight sample_db).
  no_such_row.
Defined.


(** ** Any sequence of requests *)

Section requests.
Context `{Builtins} `{Pandas}.

(** A request answered with a failure leaves the world as it was; the
    shared part of the proofs below. *)
Lemma on_store_failure {A} (h : DB → response A * DB) (f : A → Body)
    (w w' : World) status detail :
  (∀ db db', h db = (Failure status detail, db') → db' = db) →
  on_store h f w = (Failure status detail, w') → w' = w.
Proof.
  unfold on_store. intros Hh. destruct (h (world_db w)) as [r db'] eqn:Hrun.
  destruct r as [?|st d]; simpl; [done|]. intros [= -> -> <-].
  apply Hh in Hrun as ->. by destruct w.
Qed.

(** Every request moves the store by one [store_step]. *)
Lemma serve_store_step (r : Request) (w : World) :
  store_step (world_db w) (world_db (serve r w).2).
Proof.
  destruct r as [i|pilot|i|logbook|i j|tail|i ac|flight i j|file i];
    unfold serve, on_store.
  - rewrite g_pilot_run. destruct (crud.get_pilot_by_id _ _); constructor.
  - rewrite p_pilot_run.
    destruct (crud.get_pilot_by_name _ _) eqn:Hname; [constructor|].
    apply get_pilot_by_name_None in Hname. by apply step_pilot.
  - constructor.
  - apply step_logbook.
  - apply step_delete.
  - constructor.
  - apply step_aircraft.
  - rewrite p_flight_cases.
    destruct (crud.get_pilot_by_id _ i) as [p|] eqn:Hp; [|constructor].
    destruct (crud.get_aircraft_by_id _ j) as [a|] eqn:Ha; [|constructor].
    apply get_pilot_by_id_Some in Hp. apply get_aircraft_by_id_Some in Ha.
    apply step_flight; [by exists p | by exists a].
  - destruct (upload_logbook_file_cases file (Some i) w)
      as [[line ->]|(status & detail & ->)]; constructor.
Qed.

(** A property of the store that every step keeps holds after every
    sequence of requests. *)
Lemma serve_all_invariant (I : DB → Prop) :
  (∀ db db', store_step db db' → I db → I db') →
  ∀ rs w, I (world_db w) → I (world_db (serve_all rs w)).
Proof.
  intros Hstep rs. unfold serve_all.
  induction rs as [|r rs IH]; intros w Hw; [done|].
  simpl. apply IH. eapply Hstep; [apply serve_store_step | done].
Qed.

End requests.

Lemma store_step_pilot_exists db db' pid :
  store_step db db' → pilot_exists db pid → pilot_exists db' pid.
Proof.
  intros Hstep (p & Hp & Hid).
  destruct Hstep; exists p; (split; [|done]); simpl; try done.
  apply elem_of_app. by left.
Qed.

Lemma store_step_aircraft_exists db db' aid :
  store_step db db' → aircraft_exists db aid → aircraft_exists db' aid.
Proof.
  intros Hstep (a & Ha & Hid).
  destruct Hstep; exists a; (split; [|done]); simpl; try done.
  apply elem_of_app. by left.
Qed.

(** X10. A request that is answered with a failure, whatever the route
    and the status, has changed nothing: the store and the standard output
    are as before. *)
Theorem failed_request_changes_nothing `{Builtins} `{Pandas}
    (r : Request) (w w' : World) (status : Z) (detail : string) :
  serve r w = (Failure status detail, w') → w' = w.
Proof.
  destruct r as [i|pilot|i|logbook|i j|tail|i ac|flight i j|file i];
    unfold serve; try (apply on_store_failure; intros db db').
  - rewrite g_pilot_run. destruct (crud.get_pilot_by_id _ _); congruence.
  - rewrite p_pilot_run. destruct (crud.get_pilot_by_name _ _); [congruence|done].
  - by rewrite g_logbook_run.
  - by rewrite p_logbook_run.
  - by rewrite del_logbook_run.
  - done.
  - by rewrite p_aircraft_run.
  - rewrite p_flight_cases.
    destruct (crud.get_pilot_by_id _ _); [|congruence].
    destruct (crud.get_aircraft_by_id _ _); [done|congruence].
  - destruct (upload_logbook_file_cases file (Some i) w)
      as [[line ->]|(st & d & ->)]; simpl; congruence.
Qed.

Lemma failed_request_changes_nothing_witness :
  (@serve sample_builtins sample_pandas (POST_pilot_new new_alice) sample_world).2
  = sample_world.
Proof.
  by apply (@failed_request_changes_nothing sample_builtins sample_pandas
              (POST_pilot_new new_alice) sample_world _ 400
              "Name already registered").
Defined.

(** X11. No sequence of requests removes or alters a pilot, an aircraft
    or a flight: the rows of these three tables before are the first rows
    of the tables after, in the same order. *)
Theorem rows_are_never_removed `{Builtins} `{Pandas}
    (rs : list Request) (w : World) :
  pilots (world_db w) `prefix_of` pilots (world_db (serve_all rs w))
  ∧ aircraft (world_db w) `prefix_of` aircraft (world_db (serve_all rs w))
  ∧ flights (world_db w) `prefix_of` flights (world_db (serve_all rs w)).
Proof.
  apply (serve_all_invariant
           (λ db, pilots (world_db w) `prefix_of` pilots db
                  ∧ aircraft (world_db w) `prefix_of` aircraft db
                  ∧ flights (world_db w) `prefix_of` flights db));
    [|done].
  intros db db' Hstep (Hp & Ha & Hf).
  destruct Hstep; simpl; repeat split; try done;
    by apply prefix_app_r.
Qed.

(** X12. Pilot names stay unique: from a store in which no two pilots
    have the same name, no sequence of requests leads to a store in which
    two have. *)
Theorem pilot_names_stay_unique `{Builtins} `{Pandas}
    (rs : list Request) (w : World) :
  names_unique (world_db w) → names_unique (world_db (serve_all rs w)).
Proof.
  apply serve_all_invariant. unfold names_unique.
  intros db db' Hstep Hdb. destruct Hstep as [|row Hfree| | | |]; simpl; try done.
  rewrite fmap_app. apply NoDup_app. repeat split; [done| |].
  - intros name (p & -> & Hp)%list_elem_of_fmap Hrow%list_elem_of_singleton.
    apply Hfree. by exists p.
  - apply NoDup_singleton.
Qed.

(** X13. Flights keep their references: from a store in which every
    flight row refers to a pilot row and an aircraft row, every sequence of
    requests leads to such a store; in particular every store reached from
    the empty one is such a store. *)
Theorem flights_always_resolve `{Builtins} `{Pandas}
    (rs : list Request) (w : World) :
  flights_resolve (world_db w) → flights_resolve (world_db (serve_all rs w)).
Proof.
  apply serve_all_invariant. unfold flights_resolve.
  intros db db' Hstep Hdb f Hf.
  assert (f ∈ flights db
          ∨ pilot_exists db (flight_pilot_id f)
            ∧ aircraft_exists db (flight_aircraft_id f)) as [Hold|[Hp Ha]].
  { destruct Hstep; simpl in Hf; try (by left).
    apply elem_of_app in Hf as [?|Hf%list_elem_of_singleton]; [by left|].
    subst f. by right. }
  - destruct (Hdb f Hold) as [Hp Ha]. split.
    + by eapply store_step_pilot_exists.
    + by eapply store_step_aircraft_exists.
  - split.
    + by eapply store_step_pilot_exists.
    + by eapply store_step_aircraft_exists.
Qed.

Lemma pilot_names_stay_unique_witness :
  names_unique
    (world_db (@serve_all sample_builtins sample_pandas sample_requests sample_world)).
Proof.
  apply (@pilot_names_stay_unique sample_builtins sample_pandas).
  apply NoDup_singleton.
Defined.

Lemma flights_always_resolve_witness :
  flights_resolve
    (world_db (@serve_all sample_builtins sample_pandas sample_requests
                 flown_world))
  ∧ length (flights (world_db (@serve_all sample_builtins sample_pandas
                                 sample_requests flown_world))) = 2%nat.
Proof.
  split; [|reflexivity].
  apply (@flights_always_resolve sample_builtins sample_pandas).
  intros f Hf. each_row Hf. split.
  - exists alice. split; [left | reflexivity].
  - exists cessna. split; [left | reflexivity].
Defined.

(** ** Upload: which answer *)

(** X14. The answer of the upload handler. Without a pilot id it is 422
    "Pilot ID required." whatever the file, which is not read. With a pilot
    id the value of the id plays no part; the answer is 201 exactly when
    the file decodes, parses with its date column and has an "Aircraft"
    column, and then the description of that column, missing values
    filled with 0, is the one line printed; otherwise it is 500 and nothing
    is printed. *)
Theorem upload_logbook_file_answer `{Builtins} `{Pandas}
    (file : list Byte.byte) (w : World) :
  upload_logbook_file file None w = (Failure 422 "Pilot ID required.", w)
  ∧ (∀ i j, upload_logbook_file file (Some i) w
            = upload_logbook_file file (Some j) w)
  ∧ (∀ i text frame column,
       decode_utf8_sig file = Some text →
       read_csv text [str_of "Date"] = Some frame →
       getitem (fillna frame 0) (str_of "Aircraft") = Some column →
       upload_logbook_file file (Some i) w
       = (Success 201 (),
          {| world_db := world_db w; stdout := stdout w ++ [describe column] |}))
  ∧ (∀ i, (∀ text frame,
             decode_utf8_sig file = Some text →
             read_csv text [str_of "Date"] = Some frame →
             getitem (fillna frame 0) (str_of "Aircraft") = None) →
          upload_logbook_file file (Some i) w
          = (Failure 500 "Internal Server Error", w)).
Proof.
  unfold upload_logbook_file, or_fail, print. run_handler.
  split; [done|]. split; [done|]. split.
  - intros i text frame column Hdecode Hread Hcolumn.
    simpl in Hread, Hcolumn. rewrite Hdecode. simpl.
    rewrite Hread. simpl. by rewrite Hcolumn.
  - intros i Hfail.
    destruct (decode_utf8_sig file) as [text|] eqn:Hdecode; simpl; [|done].
    destruct (read_csv text [str_of "Date"]) as [frame|] eqn:Hread; simpl;
      [|done].
    pose proof (Hfail text frame eq_refl Hread) as Hcolumn.
    simpl in Hcolumn. by rewrite Hcolumn.
Qed.

Lemma upload_logbook_file_answer_witness :
  @upload_logbook_file sample_builtins sample_pandas [] (Some 1) sample_world
    = (Success 201 (), {| world_db := sample_db; stdout := ["count 0"] |})
  ∧ @upload_logbook_file sample_builtins
      {| DataFrame := str; Series := str;
         read_csv := λ _ _, None;
         fillna := λ frame _, frame;
         getitem := λ frame _, Some frame;
         describe := λ _, "count 0" |} [] (Some 1) sample_world
    = (Failure 500 "Internal Server Error", sample_world).
Proof.
  split.
  - destruct (@upload_logbook_file_answer sample_builtins sample_pandas []
                sample_world) as (_ & _ & Hok & _).
    by apply (Hok 1 [] [] []).
  - destruct (@upload_logbook_file_answer sample_builtins
                {| DataFrame := str; Series := str;
                   read_csv := λ _ _, None;
                   fillna := λ frame _, frame;
                   getitem := λ frame _, Some frame;
                   describe := λ _, "count 0" |} []
                sample_world) as (_ & _ & _ & Hfail).
    apply (Hfail 1). intros text frame _ Hread. discriminate Hread.
Defined.

(** ** The session of a request *)

(** X15. The session that [get_db] opens for a request is closed when the
    request is over, whether the handler body returns or raises: as many
    sessions are open after as before, and the generator is finished. The
    dependency changes neither the outcome of the body nor what the body
    did to the store. *)
Theorem Depends_get_db_closes_session {A} (body : handler DB A) (e : Engine) :
  open_sessions (Depends_get_db body (e, NotStarted)).2.1 = open_sessions e
  ∧ (Depends_get_db body (e, NotStarted)).2.2 = Finished
  ∧ ((Depends_get_db body (e, NotStarted)).1,
     engine_db (Depends_get_db body (e, NotStarted)).2.1)
    = body (engine_db e).
Proof.
  unfold Depends_get_db. simpl.
  destruct (body (engine_db e)) as [[a|x] db']; by simpl.
Qed.

(** ** The OpenAPI document *)

Lemma dict_get_set (k : string) (v : json) (d : dict) :
  dict_get k (dict_set k v d) = Some v.
Proof.
  induction d as [|[k' v'] d IH]; simpl.
  - by rewrite decide_True.
  - destruct (decide (k' = k)) as [->|Hne]; simpl.
    + by rewrite decide_True.
    + by rewrite decide_False.
Qed.

Lemma dict_get_set_other (k k' : string) (v : json) (d : dict) :
  k' ≠ k → dict_get k' (dict_set k v d) = dict_get k' d.
Proof.
  intros Hne. induction d as [|[k0 v0] d IH]; simpl.
  - by rewrite decide_False.
  - destruct (decide (k0 = k)) as [->|Hne0]; simpl.
    + by rewrite !decide_False.
    + by rewrite IH.
Qed.

Lemma dict_set_not_empty (k : string) (v : json) (d : dict) :
  dict_set k v d ≠ [].
Proof. destruct d as [|[k' v'] d]; simpl; [done|]. by case_decide. Qed.

Section openapi.
Context `{OpenAPI}.

Lemma custom_openapi_fresh (app : FastAPI) :
  schema_is_set (openapi_schema app) = false →
  custom_openapi app
  = match dict_get "info" (generated app) with
    | Some (JObj info) =>
        let schema :=
          dict_set "license" license
            (dict_set "info" (JObj (dict_set "x-logo" x_logo info))
               (generated app)) in
        (Returned schema, {| openapi_schema := Some schema; routes := routes app |})
    | Some _ => (Raised (Unhandled "TypeError"), app)
    | None => (Raised (Unhandled "KeyError"), app)
    end.
Proof.
  unfold custom_openapi, generated, set_info_x_logo. intros Hunset.
  destruct (openapi_schema app) as [[|item items]|]; [|done|]; run_handler;
    destruct (dict_get "info" _) as [[| | | | |info]|]; done.
Qed.

End openapi.

(** X16. The document is built once: when [custom_openapi] has returned a
    document, that document is stored in [app.openapi_schema], it is not
    empty, and every later call returns the same document without calling
    [get_openapi] again, also when the routes have changed since. *)
Theorem custom_openapi_cached `{OpenAPI} (app app' : FastAPI) (schema : dict) :
  custom_openapi app = (Returned schema, app') →
  openapi_schema app' = Some schema
  ∧ routes app' = routes app
  ∧ schema ≠ []
  ∧ ∀ rs, custom_openapi {| openapi_schema := openapi_schema app'; routes := rs |}
          = (Returned schema,
             {| openapi_schema := openapi_schema app'; routes := rs |}).
Proof.
  intros Hrun.
  assert (openapi_schema app' = Some schema ∧ routes app' = routes app
          ∧ schema ≠ []) as (Hset & Hroutes & Hne).
  { destruct (schema_is_set (openapi_schema app)) eqn:Hcached.
    - unfold custom_openapi in Hrun.
      destruct (openapi_schema app) as [[|item items]|] eqn:Hs; try done.
      by injection Hrun as <- <-.
    - rewrite custom_openapi_fresh in Hrun by done.
      destruct (dict_get "info" _) as [[| | | | |info]|]; try done.
      injection Hrun as <- <-. repeat split. apply dict_set_not_empty. }
  repeat split; try done.
  intros rs. unfold custom_openapi. simpl. rewrite Hset.
  by destruct schema.
Qed.

Lemma custom_openapi_cached_witness :
  ∃ schema,
    (@custom_openapi sample_openapi sample_app).1 = Returned schema
    ∧ @custom_openapi sample_openapi
        (@Build_FastAPI sample_openapi (Some schema) sample_routes)
      = (Returned schema,
         @Build_FastAPI sample_openapi (Some schema) sample_routes).
Proof.
  destruct (@custom_openapi sample_openapi sample_app) as [out app'] eqn:Hrun.
  vm_compute in Hrun. injection Hrun as <- <-.
  eexists. split; [reflexivity|].
  destruct (@custom_openapi_cached sample_openapi sample_app _ _ eq_refl)
    as (_ & _ & _ & Hlater).
  apply (Hlater sample_routes).
Defined.

(** X17. What a first call adds: when no document is stored yet and the
    generated document has an "info" object, [custom_openapi] returns and
    stores the generated document with the key "license" set to the GPL-3.0
    entry and the key "x-logo" of "info" set to the logo; every other key of
    the document and every other key of "info" is as generated. *)
Theorem custom_openapi_adds_logo_and_license `{OpenAPI}
    (app : FastAPI) (info : dict) :
  schema_is_set (openapi_schema app) = false →
  dict_get "info" (generated app) = Some (JObj info) →
  ∃ schema info',
    custom_openapi app
    = (Returned schema, {| openapi_schema := Some schema; routes := routes app |})
    ∧ dict_get "license" schema = Some license
    ∧ dict_get "info" schema = Some (JObj info')
    ∧ dict_get "x-logo" info' = Some x_logo
    ∧ (∀ k, k ≠ "x-logo" → dict_get k info' = dict_get k info)
    ∧ (∀ k, k ≠ "info" → k ≠ "license" →
            dict_get k schema = dict_get k (generated app)).
Proof.
  intros Hunset Hinfo. rewrite custom_openapi_fresh, Hinfo by done.
  eexists _, (dict_set "x-logo" x_logo info).
  split; [reflexivity|]. split; [|split; [|split; [|split]]].
  - apply dict_get_set.
  - rewrite dict_get_set_other by done. apply dict_get_set.
  - apply dict_get_set.
  - intros k Hk. by apply dict_get_set_other.
  - intros k Hinfo' Hlicense. by rewrite !dict_get_set_other.
Qed.

Lemma custom_openapi_adds_logo_and_license_witness :
  ∃ schema info',
    @custom_openapi sample_openapi sample_app
    = (Returned schema, {| openapi_schema := Some schema; routes := [] |})
    ∧ dict_get "license" schema = Some license
    ∧ dict_get "info" schema = Some (JObj info')
    ∧ dict_get "x-logo" info' = Some x_logo
    ∧ dict_get "title" info' = Some (JStr "Nauclerus Logbook API")
    ∧ dict_get "paths" schema = Some (JObj []).
Proof.
  destruct (@custom_openapi_adds_logo_and_license sample_openapi sample_app
              [("title", JStr "Nauclerus Logbook API");
               ("description", JStr "Aviation logbook API for all pilots.");
               ("version", JStr "0.0.6")] eq_refl eq_refl)
    as (schema & info' & Hrun & Hlic & Hinfo & Hlogo & Hkeys & Hother).
  exists schema, info'. repeat split; try done.
  - by rewrite Hkeys.
  - by rewrite Hother.
Defined.

(** X18. When no document is stored and the generated document has no
    "info" object, [custom_openapi] raises and stores nothing, so the next
    call generates again. *)
Theorem custom_openapi_needs_info `{OpenAPI} (app : FastAPI) :
  schema_is_set (openapi_schema app) = false →
  (∀ info, dict_get "info" (generated app) ≠ Some (JObj info)) →
  ∃ what, custom_openapi app = (Raised (Unhandled what), app).
Proof.
  intros Hunset Hinfo. rewrite custom_openapi_fresh by done.
  destruct (dict_get "info" (generated app)) as [[| | | | |info]|] eqn:Hget;
    try (by eexists).
  by destruct (Hinfo info).
Qed.

Lemma custom_openapi_needs_info_witness :
  ∃ what,
    @custom_openapi {| Route := string; get_openapi := λ _ _ _ _, [] |}
       {| openapi_schema := Some []; routes := [] |}
    = (Raised (Unhandled what), {| openapi_schema := Some []; routes := [] |}).
Proof.
  by apply (@custom_openapi_needs_info
              {| Route := string; get_openapi := λ _ _ _ _, [] |}).
Defined.
